(** * A shallow embedding of [app.py], the private unit-check Telegram bot

    The development follows the source top to bottom:
    - Python [str] values are lists of Unicode code points, and the
      character tables the program reaches through [str.strip] and the
      [re] module are written out (CPython 3.11, Unicode 14.0);
    - [re] patterns are a small syntax tree run by a backtracking matcher
      with the priorities of CPython's engine (leftmost start, first
      alternative, greedy repetition);
    - the [checks] table is a list of rows with SQLite's AUTOINCREMENT
      counter, and the handlers run in a state-and-exception monad over
      the database and the replies handed to the chat library. *)

From Stdlib Require Import ZArith NArith List String Ascii Bool Lia Sorted Permutation.
From Stdlib Require Import DecimalFacts DecimalPos DecimalN.
From stdpp Require Import base decidable option list sorting gmap.

Import ListNotations.
Local Open Scope N_scope.

(* ===================================================================== *)
(** * Python strings *)
(* ===================================================================== *)

Module Py.

(** A [str] is a sequence of code points. *)
Definition str := list N.

(** Decoding of the UTF-8 bytes of a source literal into code points, so
    that the literals of [app.py] can be written as they are. *)
Fixpoint utf8 (bs : list N) : str :=
  match bs with
  | [] => []
  | b0 :: r0 =>
    if b0 <? 0x80 then b0 :: utf8 r0
    else
      match r0 with
      | [] => []
      | b1 :: r1 =>
        if b0 <? 0xE0
        then (N.lor (N.shiftl (N.land b0 0x1F) 6) (N.land b1 0x3F)) :: utf8 r1
        else
          match r1 with
          | [] => []
          | b2 :: r2 =>
            if b0 <? 0xF0
            then (N.lor (N.shiftl (N.land b0 0x0F) 12)
                    (N.lor (N.shiftl (N.land b1 0x3F) 6) (N.land b2 0x3F)))
                   :: utf8 r2
            else
              match r2 with
              | [] => []
              | b3 :: r3 =>
                (N.lor (N.shiftl (N.land b0 0x07) 18)
                   (N.lor (N.shiftl (N.land b1 0x3F) 12)
                      (N.lor (N.shiftl (N.land b2 0x3F) 6) (N.land b3 0x3F))))
                  :: utf8 r3
              end
          end
      end
  end.

Definition lit (s : string) : str :=
  utf8 (List.map N_of_ascii (list_ascii_of_string s)).
Arguments lit s%_string.

(** ** Character classes *)

(** [Py_UNICODE_ISSPACE]: the characters [str.strip] removes. *)
Definition isspace (c : N) : bool :=
  ((0x09 <=? c) && (c <=? 0x0D)) || ((0x1C <=? c) && (c <=? 0x20))
  || (c =? 0x85) || (c =? 0xA0) || (c =? 0x1680)
  || ((0x2000 <=? c) && (c <=? 0x200A))
  || (c =? 0x2028) || (c =? 0x2029) || (c =? 0x202F) || (c =? 0x205F)
  || (c =? 0x3000).

(** The zero of every run of ten decimal digits in Unicode 14.0. *)
Definition decimal_zeros : list N :=
  [48; 1632; 1776; 1984; 2406; 2534; 2662; 2790; 2918; 3046; 3174; 3302;
   3430; 3558; 3664; 3792; 3872; 4160; 4240; 6112; 6160; 6470; 6608; 6784;
   6800; 6992; 7088; 7232; 7248; 42528; 43216; 43264; 43472; 43504; 43600;
   44016; 65296; 66720; 68912; 69734; 69872; 69942; 70096; 70384; 70736;
   70864; 71248; 71360; 71472; 71904; 72016; 72784; 73040; 73120; 92768;
   92864; 93008; 123200; 123632; 125264; 130032].

(** [Py_UNICODE_ISDECIMAL], the class behind [\d] in a [str] pattern
    compiled without [re.ASCII]: the runs above and the five runs of
    mathematical digits U+1D7CE..U+1D7FF. *)
Definition isdecimal (c : N) : bool :=
  existsb (fun z => (z <=? c) && (c <? z + 10)) decimal_zeros
  || ((0x1D7CE <=? c) && (c <=? 0x1D7FF)).

Definition is_ascii_digit (c : N) : bool := (48 <=? c) && (c <=? 57).

(** Code points that cannot be encoded as UTF-8 (lone surrogates). *)
Definition is_surrogate (c : N) : bool := (0xD800 <=? c) && (c <=? 0xDFFF).

(** ** Slicing and trimming *)

Fixpoint take_while {A} (p : A -> bool) (l : list A) : list A :=
  match l with
  | x :: l' => if p x then x :: take_while p l' else []
  | [] => []
  end.

Fixpoint drop_while {A} (p : A -> bool) (l : list A) : list A :=
  match l with
  | x :: l' => if p x then drop_while p l' else l
  | [] => []
  end.

Definition lstrip (s : str) : str := drop_while isspace s.
Definition rstrip (s : str) : str := rev (drop_while isspace (rev s)).

(** [s.strip()] *)
Definition strip (s : str) : str := rstrip (lstrip s).

(** [sep.join(parts)] *)
Fixpoint join (sep : str) (parts : list str) : str :=
  match parts with
  | [] => []
  | [p] => p
  | p :: ps => p ++ sep ++ join sep ps
  end.

(** ** Formatting integers: [f"{n}"] *)

Fixpoint digits_of_uint (d : Decimal.uint) : str :=
  match d with
  | Decimal.Nil => []
  | Decimal.D0 d => 48 :: digits_of_uint d
  | Decimal.D1 d => 49 :: digits_of_uint d
  | Decimal.D2 d => 50 :: digits_of_uint d
  | Decimal.D3 d => 51 :: digits_of_uint d
  | Decimal.D4 d => 52 :: digits_of_uint d
  | Decimal.D5 d => 53 :: digits_of_uint d
  | Decimal.D6 d => 54 :: digits_of_uint d
  | Decimal.D7 d => 55 :: digits_of_uint d
  | Decimal.D8 d => 56 :: digits_of_uint d
  | Decimal.D9 d => 57 :: digits_of_uint d
  end.

Definition str_of_N (n : N) : str := digits_of_uint (N.to_uint n).

Definition str_of_int (z : Z) : str :=
  match z with
  | Z0 => [48]
  | Zpos p => str_of_N (Npos p)
  | Zneg p => 45 :: str_of_N (Npos p)
  end.

(** [needle in haystack] *)
Fixpoint startswith (p s : str) : bool :=
  match p, s with
  | [], _ => true
  | a :: p', b :: s' => (a =? b) && startswith p' s'
  | _ :: _, [] => false
  end.

Fixpoint contains (needle hay : str) : bool :=
  startswith needle hay
  || match hay with
     | [] => false
     | _ :: hay' => contains needle hay'
     end.

End Py.

Abbreviation pystr := Py.str.

(* ===================================================================== *)
(** * The [re] module *)
(* ===================================================================== *)

Module Re.

(** ** Matching one character under [re.I]

    A cased literal of a [str] pattern compiled with [re.I] matches a
    character whose simple lowercase is the lowered literal, or is one of
    its case-equivalents.  For an ASCII literal these are the two ASCII
    cases and the characters listed here: U+0130 and U+0131 for [i],
    U+017F for [s], U+212A for [k]. *)
Definition unicode_case_variants (lo : N) : list N :=
  if lo =? 0x69 then [0x130; 0x131]
  else if lo =? 0x73 then [0x17F]
  else if lo =? 0x6B then [0x212A]
  else [].

Definition is_ascii_upper (c : N) : bool := (0x41 <=? c) && (c <=? 0x5A).

(** [literal_ignore lo c]: does [c] match the literal whose lowercase is
    the ASCII character [lo]? *)
Definition literal_ignore (lo c : N) : bool :=
  (c =? lo) || (is_ascii_upper c && (c + 32 =? lo))
  || existsb (N.eqb c) (unicode_case_variants lo).

(** ** Patterns *)

Inductive pattern : Type :=
| EMPTY
| AT_BEGINNING                                  (* ^ *)
| AT_END                                        (* $ *)
| IN (cls : N -> bool)                          (* one character of a class *)
| MAX_REPEAT (lo : nat) (hi : option nat) (cls : N -> bool)
                                                (* greedy x?, x+, x{m,n} *)
| BRANCH (p q : pattern)                        (* p|q *)
| SUBPATTERN (group : nat) (p : pattern)        (* (p) *)
| SEQ (p q : pattern).

Fixpoint seq (ps : list pattern) : pattern :=
  match ps with
  | [] => EMPTY
  | p :: ps' => SEQ p (seq ps')
  end.

(** A word of literals under [re.I]. *)
Definition word_i (w : pystr) : pattern :=
  seq (List.map (fun c => IN (literal_ignore c)) w).

(** ** The matcher *)

(** The groups captured so far. *)
Definition groups := gmap nat pystr.

(** [$] without [re.M]: at the end, or just before a final newline. *)
Definition at_end (s : pystr) : bool :=
  match s with
  | [] => true
  | [c] => c =? 0x0A
  | _ => false
  end.

(** How many characters of the class start [s], up to [hi]. *)
Fixpoint count (cls : N -> bool) (hi : option nat) (s : pystr) : nat :=
  match s, hi with
  | c :: s', None => if cls c then S (count cls None s') else O
  | c :: s', Some (S h) => if cls c then S (count cls (Some h) s') else O
  | _, _ => O
  end.

Section Matcher.
Context {A : Type}.

(** What remains to be matched: it receives the position reached, the
    rest of the subject and the groups. *)
Definition cont := nat -> pystr -> groups -> option A.

(** A greedy repetition that took [lo + extra] characters gives them
    back one at a time until the rest of the pattern matches. *)
Fixpoint give_back (k : cont) (pos : nat) (s : pystr) (g : groups)
    (lo extra : nat) : option A :=
  match k (pos + (lo + extra))%nat (drop (lo + extra) s) g with
  | Some r => Some r
  | None =>
    match extra with
    | O => None
    | S e => give_back k pos s g lo e
    end
  end.

Fixpoint run (p : pattern) (pos : nat) (s : pystr) (g : groups)
    (k : cont) : option A :=
  match p with
  | EMPTY => k pos s g
  | AT_BEGINNING => if (pos =? 0)%nat then k pos s g else None
  | AT_END => if at_end s then k pos s g else None
  | IN cls =>
    match s with
    | c :: s' => if cls c then k (S pos) s' g else None
    | [] => None
    end
  | MAX_REPEAT lo hi cls =>
    let n := count cls hi s in
    if (n <? lo)%nat then None else give_back k pos s g lo (n - lo)
  | BRANCH p q =>
    match run p pos s g k with
    | Some r => Some r
    | None => run q pos s g k
    end
  | SUBPATTERN i p =>
    run p pos s g (fun pos' s' g' => k pos' s' (<[i := take (pos' - pos) s]> g'))
  | SEQ p q =>
    run p pos s g (fun pos' s' g' => run q pos' s' g' k)
  end.
End Matcher.

(** A match object, with the groups it captured. *)
Record Match := { m_groups : groups }.

Definition accept : @cont Match :=
  fun _ _ g => Some {| m_groups := g |}.

(** [pattern.match(s)]: a match starting at the first character. *)
Definition match_ (p : pattern) (s : pystr) : option Match :=
  run p 0 s ∅ accept.

(** [pattern.search(s)]: the match at the leftmost position that has one. *)
Fixpoint search_from (p : pattern) (pos : nat) (s : pystr) : option Match :=
  match run p pos s ∅ accept with
  | Some m => Some m
  | None =>
    match s with
    | [] => None
    | _ :: s' => search_from p (S pos) s'
    end
  end.

Definition search (p : pattern) (s : pystr) : option Match :=
  search_from p 0 s.

(** [m.group(i)] *)
Definition group (m : Match) (i : nat) : option pystr := m_groups m !! i.

(** Truth value of what [match] and [search] return: a match object is
    true, [None] is false. *)
Definition found (m : option Match) : bool :=
  match m with
  | Some _ => true
  | None => false
  end.

End Re.

(* ===================================================================== *)
(** * app.py *)
(* ===================================================================== *)

(** ** The classifier *)

(** [re.compile(r"^https?://", re.I)] *)
Definition URL_RE : Re.pattern :=
  Re.seq [Re.AT_BEGINNING; Re.word_i (Py.lit "http");
          Re.MAX_REPEAT 0 (Some 1%nat) (Re.literal_ignore 0x73);
          Re.word_i (Py.lit "://")].

(** [re.compile(r"^\d{6,20}$")] *)
Definition PERMIT_RE : Re.pattern :=
  Re.seq [Re.AT_BEGINNING; Re.MAX_REPEAT 6 (Some 20%nat) Py.isdecimal; Re.AT_END].

Definition detect_type (text : pystr) : pystr :=
  let t := Py.strip text in
  if Re.found (Re.match_ URL_RE t) then Py.lit "listing_url"
  else if Re.found (Re.match_ PERMIT_RE t) then Py.lit "permit_number"
  else Py.lit "text".

(** ** The enricher *)

(** The dict that [fake_lookup] builds and [format_card] reads, as a
    record of its seven keys; a key absent from the dict is [None]. *)
Record LookupResult := {
  unit_number : option pystr;
  building : option pystr;
  project : option pystr;
  community : option pystr;
  permit_status : option pystr;
  input_type : option pystr;
  flags : option (list pystr)
}.

(** [d.get(key, dflt)] *)
Definition get {A} (field : option A) (dflt : A) : A :=
  match field with
  | Some v => v
  | None => dflt
  end.

(** The class [[\-_/ ]]. *)
Definition separator (c : N) : bool :=
  (c =? 0x2D) || (c =? 0x5F) || (c =? 0x2F) || (c =? 0x20).

(** [r"(unit|apt|apartment|flat)[\-_/ ]?(\d+)"] under [re.I] *)
Definition UNIT_RE : Re.pattern :=
  Re.seq
    [Re.SUBPATTERN 1
       (Re.BRANCH (Re.word_i (Py.lit "unit"))
          (Re.BRANCH (Re.word_i (Py.lit "apt"))
             (Re.BRANCH (Re.word_i (Py.lit "apartment"))
                (Re.word_i (Py.lit "flat")))));
     Re.MAX_REPEAT 0 (Some 1%nat) separator;
     Re.SUBPATTERN 2 (Re.MAX_REPEAT 1 None Py.isdecimal)].

(** [x or y] on an optional string: [None] and the empty string are false. *)
Definition or_else (x : option pystr) (y : pystr) : pystr :=
  match x with
  | Some (c :: s) => c :: s
  | _ => y
  end.

Definition MVP_NOTICE : pystr := Py.lit "No data source connected yet (MVP).".

Definition fake_lookup (text input_type : pystr) : LookupResult :=
  let unit_guess :=
    match Re.search UNIT_RE text with
    | Some m => Re.group m 2
    | None => None
    end in
  {| unit_number := Some (or_else unit_guess (Py.lit "—"));
     building := Some (Py.lit "—");
     project := Some (Py.lit "—");
     community := Some (Py.lit "—");
     permit_status := Some (Py.lit "unknown");
     input_type := Some input_type;
     flags := Some [MVP_NOTICE] |}.

(** ** The formatter *)

Definition nl : pystr := [0x0A].

Definition format_card (check_id : Z) (result : LookupResult) : pystr :=
  let flags := get (flags result) [] in
  let flag_text :=
    match flags with
    | [] => Py.lit "—"
    | _ => Py.join nl (List.map (fun f => Py.lit "• " ++ f) flags)
    end in
  Py.lit "✅ Check #" ++ Py.str_of_int check_id ++ nl ++ nl
  ++ Py.lit "Unit: " ++ get (unit_number result) (Py.lit "—") ++ nl
  ++ Py.lit "Building: " ++ get (building result) (Py.lit "—") ++ nl
  ++ Py.lit "Project: " ++ get (project result) (Py.lit "—") ++ nl
  ++ Py.lit "Community: " ++ get (community result) (Py.lit "—") ++ nl
  ++ Py.lit "Permit: " ++ get (permit_status result) (Py.lit "unknown") ++ nl
  ++ Py.lit "Type: " ++ get (input_type result) (Py.lit "—") ++ nl ++ nl
  ++ Py.lit "Flags:" ++ nl ++ flag_text.

(** ** The database *)

Module Row.
(** A row of the table [checks]. *)
Record t := { id : Z; user_id : Z; payload : pystr; created_at : pystr }.
End Row.

(** The table, in insertion order, and the counter SQLite keeps for an
    AUTOINCREMENT key (the largest id the table has ever held). *)
Record Db := { checks : list Row.t; sqlite_sequence : Z }.

Definition empty_db : Db := {| checks := []; sqlite_sequence := 0 |}.

(** [CREATE TABLE IF NOT EXISTS]: a database file that already holds the
    table is left as it is. *)
Definition init_db (file : option Db) : Db :=
  match file with
  | Some d => d
  | None => empty_db
  end.

Definition MAX_ROWID : Z := 9223372036854775807.

Definition max_rowid (rows : list Row.t) : Z :=
  fold_right Z.max 0%Z (List.map Row.id rows).

(** What a handler can raise. *)
Inductive exn : Type :=
| OverflowError          (* an int that does not fit SQLite's 64 bits *)
| UnicodeEncodeError     (* a str with a lone surrogate *)
| OperationalError.      (* SQLITE_FULL: the key space is used up *)

Inductive outcome (A : Type) : Type :=
| Return (a : A)
| Raise (e : exn).
Arguments Return {A} a.
Arguments Raise {A} e.

(** Binding of a statement's parameters. *)
Definition bind_int (z : Z) : outcome Z :=
  if ((- 9223372036854775808 <=? z) && (z <=? 9223372036854775807))%Z
  then Return z else Raise OverflowError.

Definition bind_text (s : pystr) : outcome pystr :=
  if existsb Py.is_surrogate s then Raise UnicodeEncodeError else Return s.

(** [INSERT INTO checks(user_id, payload, created_at) VALUES(?,?,?)]
    followed by [cur.lastrowid]. *)
Definition insert_check (d : Db) (user_id : Z) (payload created_at : pystr)
  : outcome (Z * Db) :=
  match bind_int user_id with
  | Raise e => Raise e
  | Return u =>
    match bind_text payload with
    | Raise e => Raise e
    | Return p =>
      match bind_text created_at with
      | Raise e => Raise e
      | Return c =>
        let top := Z.max (max_rowid (checks d)) (sqlite_sequence d) in
        if (MAX_ROWID <=? top)%Z then Raise OperationalError
        else
          let i := (top + 1)%Z in
          Return (i, {| checks := checks d ++ [Row.Build_t i u p c];
                        sqlite_sequence := i |})
      end
    end
  end.

(** The three columns a [SELECT id, payload, created_at] returns. *)
Record Selected := { sel_id : Z; sel_payload : pystr; sel_created_at : pystr }.

Definition columns (r : Row.t) : Selected :=
  {| sel_id := Row.id r; sel_payload := Row.payload r;
     sel_created_at := Row.created_at r |}.

(** [ORDER BY id DESC] *)
Definition id_desc (a b : Row.t) : Prop := (Row.id b <= Row.id a)%Z.

#[global] Instance id_desc_dec a b : Decision (id_desc a b).
Proof. unfold id_desc. apply _. Defined.

(** [SELECT id, payload, created_at FROM checks WHERE user_id=?
     ORDER BY id DESC LIMIT n]; the source runs it with [n = 5]. *)
Definition select_recent (d : Db) (user_id : Z) (limit : nat)
  : outcome (list Selected) :=
  match bind_int user_id with
  | Raise e => Raise e
  | Return u =>
    Return
      (List.map columns
         (take limit
            (merge_sort id_desc
               (filter (fun r => Row.user_id r = u) (checks d)))))
  end.

(** ** The chat library's update and the world of a handler *)

Module User.
Record t := { id : Z }.
End User.

Module Message.
(** An incoming message: the handlers are registered for commands and
    for text, so a message that reaches them carries a text; [date] is
    the time stamp the chat service put on it. *)
Record t := { text : pystr; date : Z }.
End Message.

Record Update := {
  effective_user : option User.t;
  message : option Message.t
}.

(** [datetime] and [datetime.isoformat()] *)
Record datetime := {
  year : N; month : N; day : N;
  hour : N; minute : N; second : N; microsecond : N
}.

Definition zfill (width : nat) (s : pystr) : pystr :=
  repeat 0x30 (width - length s) ++ s.

Definition isoformat (t : datetime) : pystr :=
  zfill 4 (Py.str_of_N (year t)) ++ Py.lit "-"
  ++ zfill 2 (Py.str_of_N (month t)) ++ Py.lit "-"
  ++ zfill 2 (Py.str_of_N (day t)) ++ Py.lit "T"
  ++ zfill 2 (Py.str_of_N (hour t)) ++ Py.lit ":"
  ++ zfill 2 (Py.str_of_N (minute t)) ++ Py.lit ":"
  ++ zfill 2 (Py.str_of_N (second t))
  ++ (if microsecond t =? 0 then []
      else Py.lit "." ++ zfill 6 (Py.str_of_N (microsecond t))).

(** What a handler runs in: the database, the replies handed to
    [reply_text] so far, and the reading [datetime.utcnow()] gives. *)
Record World := { db : Db; sent : list pystr; clock : datetime }.

(** A handler step changes the world and returns or raises. *)
Definition M (A : Type) : Type := World -> World * outcome A.

#[global] Instance M_ret : MRet M := fun A a w => (w, Return a).

#[global] Instance M_bind : MBind M := fun A B f m w =>
  match m w with
  | (w', Return a) => f a w'
  | (w', Raise e) => (w', Raise e)
  end.

Definition reply_text (s : pystr) : M unit :=
  fun w => ({| db := db w; sent := sent w ++ [s]; clock := clock w |}, Return tt).

Definition utcnow : M datetime := fun w => (w, Return (clock w)).

Definition execute_insert (user_id : Z) (payload created_at : pystr) : M Z :=
  fun w =>
    match insert_check (db w) user_id payload created_at with
    | Return (i, d) => ({| db := d; sent := sent w; clock := clock w |}, Return i)
    | Raise e => (w, Raise e)
    end.

Definition execute_select (user_id : Z) (limit : nat) : M (list Selected) :=
  fun w => (w, select_recent (db w) user_id limit).

(** ** The access gate and the handlers *)

Section Handlers.

(** The allow-set read from the configuration at start-up. *)
Variable ALLOWED_USER_IDS : gset Z.

Definition is_allowed (user_id : Z) : bool :=
  bool_decide (ALLOWED_USER_IDS = ∅) || bool_decide (user_id ∈ ALLOWED_USER_IDS).

Definition REFUSAL : pystr := Py.lit "⛔️ Private bot.".

Definition WELCOME : pystr :=
  Py.lit "👋 Private Unit Bot" ++ nl ++ nl
  ++ Py.lit "Plak een listing link of permit number." ++ nl
  ++ Py.lit "Commands: /help  /last".

Definition HELP : pystr :=
  Py.lit "Send:" ++ nl ++ Py.lit "- listing link" ++ nl
  ++ Py.lit "- permit number" ++ nl ++ nl ++ Py.lit "Commands:" ++ nl
  ++ Py.lit "/last (laatste 5 checks)".

Definition cmd_start (update : Update) : M unit :=
  match effective_user update, message update with
  | Some u, Some _ =>
    if negb (is_allowed (User.id u)) then reply_text REFUSAL
    else reply_text WELCOME
  | _, _ => mret tt
  end.

Definition cmd_help (update : Update) : M unit :=
  match effective_user update, message update with
  | Some u, Some _ =>
    if negb (is_allowed (User.id u)) then reply_text REFUSAL
    else reply_text HELP
  | _, _ => mret tt
  end.

(** One line of the [/last] reply. *)
Definition last_line (r : Selected) : pystr :=
  Py.lit "#" ++ Py.str_of_int (sel_id r) ++ Py.lit " — "
  ++ take 60 (sel_payload r) ++ Py.lit " (" ++ sel_created_at r ++ Py.lit ")".

Definition cmd_last (update : Update) : M unit :=
  match effective_user update, message update with
  | Some u, Some _ =>
    if negb (is_allowed (User.id u)) then reply_text REFUSAL
    else
      rows ← execute_select (User.id u) 5;
      match rows with
      | [] => reply_text (Py.lit "Nog geen checks.")
      | _ =>
        let lines := [Py.lit "🕘 Laatste checks:"] ++ List.map last_line rows in
        reply_text (Py.join nl lines)
      end
  | _, _ => mret tt
  end.

Definition on_text (update : Update) : M unit :=
  match effective_user update, message update with
  | Some u, Some m =>
    if negb (is_allowed (User.id u)) then reply_text REFUSAL
    else
      let payload := Py.strip (Message.text m) in
      let input_type := detect_type payload in
      let result := fake_lookup payload input_type in
      now ← utcnow;
      let created_at := isoformat now ++ Py.lit "Z" in
      check_id ← execute_insert (User.id u) payload created_at;
      reply_text (Py.lit "(debug) your_user_id=" ++ Py.str_of_int (User.id u)
                  ++ nl ++ nl ++ format_card check_id result)
  | _, _ => mret tt
  end.

End Handlers.

(** ** Start-up: the configuration read from the environment *)

(** [Py_UNICODE_TODECIMAL]: the value of a decimal digit. *)
Definition todecimal (c : N) : option N :=
  if (0x1D7CE <=? c) && (c <=? 0x1D7FF) then Some ((c - 0x1D7CE) mod 10)
  else
    match find (fun z => (z <=? c) && (c <? z + 10)) Py.decimal_zeros with
    | Some z => Some (c - z)
    | None => None
    end.

(** What [int] does to a character before it parses: ASCII stays, other
    white space becomes a space, other decimal digits become ASCII
    digits, and anything else becomes [?] (where the C code also cuts the
    string, which changes nothing: the parser rejects the [?]). *)
Definition to_ascii (c : N) : N :=
  if c <? 127 then c
  else if Py.isspace c then 0x20
  else
    match todecimal c with
    | Some d => 0x30 + d
    | None => 0x3F
    end.

(** [Py_ISSPACE] *)
Definition ascii_isspace (c : N) : bool :=
  ((0x09 <=? c) && (c <=? 0x0D)) || (c =? 0x20).

(** The digits of a literal, with single underscores between them: the
    value, the number of digits and what follows; [None] for a doubled
    or trailing underscore. *)
Fixpoint scan_digits (s : pystr) (after_underscore : bool) (acc ndigits : N)
  : option (N * N * pystr) :=
  match s with
  | c :: s' =>
    if c =? 0x5F then
      if after_underscore then None else scan_digits s' true acc ndigits
    else if Py.is_ascii_digit c then
      scan_digits s' false (10 * acc + (c - 0x30)) (ndigits + 1)
    else if after_underscore then None
    else Some (acc, ndigits, s)
  | [] => if after_underscore then None else Some (acc, ndigits, [])
  end.

(** [sys.int_info.default_max_str_digits] *)
Definition MAX_STR_DIGITS : N := 4300.

(** [int(s)] for a [str]; [None] is [ValueError]. *)
Definition py_int (s : pystr) : option Z :=
  let a := Py.drop_while ascii_isspace (List.map to_ascii s) in
  let signed :=
    match a with
    | c :: r => if c =? 0x2B then (false, r)
                else if c =? 0x2D then (true, r)
                else (false, a)
    | [] => (false, a)
    end in
  match snd signed with
  | c :: _ =>
    if c =? 0x5F then None
    else
      match scan_digits (snd signed) false 0 0 with
      | None => None
      | Some (v, n, rest) =>
        if MAX_STR_DIGITS <? n then None
        else if n =? 0 then None
        else
          match Py.drop_while ascii_isspace rest with
          | [] => Some (if fst signed then (- Z.of_N v)%Z else Z.of_N v)
          | _ :: _ => None
          end
      end
  | [] => None
  end.

(** [s.split(sep)] for a separator of one character. *)
Fixpoint split (sep : N) (s : pystr) : list pystr :=
  match s with
  | [] => [[]]
  | c :: s' =>
    if c =? sep then [] :: split sep s'
    else
      match split sep s' with
      | item :: items => (c :: item) :: items
      | [] => [[c]]
      end
  end.

(** What the module can raise while it is imported. *)
Inductive startup_error : Type :=
| ValueError         (* an allowed id that is not an integer literal *)
| RuntimeError.      (* no bot token *)

Inductive loaded (A : Type) : Type :=
| Loaded (a : A)
| Crashed (e : startup_error).
Arguments Loaded {A} a.
Arguments Crashed {A} e.

(** The loop over the items of the list of allowed ids. *)
Fixpoint add_allowed (items : list pystr) (ids : gset Z) : loaded (gset Z) :=
  match items with
  | [] => Loaded ids
  | x :: items' =>
    match Py.strip x with
    | [] => add_allowed items' ids
    | c :: x' =>
      match py_int (c :: x') with
      | Some n => add_allowed items' ({[ n ]} ∪ ids)
      | None => Crashed ValueError
      end
    end
  end.

(** [v or ""] for what [os.getenv] returns. *)
Definition or_empty (v : option pystr) : pystr :=
  match v with
  | Some s => s
  | None => []
  end.

(** The allow-set for a value of the variable [ALLOWED_USER_IDS]. *)
Definition parse_allowed (v : option pystr) : loaded (gset Z) :=
  add_allowed (split 0x2C (or_empty v)) ∅.

Module Config.
Record t := { BOT_TOKEN : pystr; ALLOWED_USER_IDS : gset Z; DB_PATH : pystr }.
End Config.

(** The module's globals, from [os.environ] as it is after
    [load_dotenv()]. *)
Definition load_config (environ : gmap pystr pystr) : loaded Config.t :=
  let token := default [] (environ !! Py.lit "BOT_TOKEN") in
  match parse_allowed (environ !! Py.lit "ALLOWED_USER_IDS") with
  | Crashed e => Crashed e
  | Loaded ids =>
    match token with
    | [] => Crashed RuntimeError
    | _ :: _ =>
      Loaded {| Config.BOT_TOKEN := token;
                Config.ALLOWED_USER_IDS := ids;
                Config.DB_PATH := default (Py.lit "bot.db") (environ !! Py.lit "DB_PATH") |}
    end
  end.

(* ===================================================================== *)
(** * The vocabulary of the specification *)
(* ===================================================================== *)

(** The definitions below say in plain list terms what the specification
    says, name the parts of the model that the proofs treat one at a
    time, and fix the concrete inputs of the scenarios. *)

(** ** Words read without regard to case *)

(** The rest of [s] after the word [w], read without regard to case. *)
Fixpoint ci_prefix (w s : pystr) : option pystr :=
  match w, s with
  | [], _ => Some s
  | a :: w', c :: s' => if Re.literal_ignore a c then ci_prefix w' s' else None
  | _ :: _, [] => None
  end.

(** [istartswith w s]: [s] starts with the word [w], read without regard
    to case. *)
Definition istartswith (w s : pystr) : bool :=
  match ci_prefix w s with
  | Some _ => true
  | None => false
  end.

Definition url_scheme (t : pystr) : bool :=
  istartswith (Py.lit "http://") t || istartswith (Py.lit "https://") t.

(** [digit_string digit t]: [t] is 6 to 20 characters of the class
    [digit] and nothing else. *)
Definition digit_string (digit : N -> bool) (t : pystr) : bool :=
  (6 <=? length t)%nat && (length t <=? 20)%nat && forallb digit t.

Definition classify_by (digit : N -> bool) (text : pystr) : pystr :=
  let t := Py.strip text in
  if url_scheme t then Py.lit "listing_url"
  else if digit_string digit t then Py.lit "permit_number"
  else Py.lit "text".

Definition ARABIC_123456 : pystr := Py.lit "١٢٣٤٥٦".

(** ** The unit pattern, in plain terms *)

Definition UNIT_WORDS : list pystr :=
  [Py.lit "unit"; Py.lit "apt"; Py.lit "apartment"; Py.lit "flat"].

Definition nonempty (ds : pystr) : option pystr :=
  match ds with
  | [] => None
  | _ :: _ => Some ds
  end.

(** One separator, if there is one, and then the run of digits that
    follows immediately; the run has to have a digit. *)
Definition digits_after (rest : pystr) : option pystr :=
  match rest with
  | c :: r => if separator c then nonempty (Py.take_while Py.isdecimal r)
              else nonempty (Py.take_while Py.isdecimal rest)
  | [] => None
  end.

(** The first of [alts] that is there. *)
Fixpoint first_of {A} (alts : list (option A)) : option A :=
  match alts with
  | [] => None
  | Some a :: _ => Some a
  | None :: alts' => first_of alts'
  end.

(** An occurrence at the very start of [s]: one of the words in any
    case, then [digits_after]. *)
Definition unit_here (s : pystr) : option pystr :=
  first_of (List.map (fun w => match ci_prefix w s with
                               | Some rest => digits_after rest
                               | None => None
                               end) UNIT_WORDS).

(** The first occurrence anywhere in [s]. *)
Fixpoint first_unit (s : pystr) : option pystr :=
  match unit_here s with
  | Some ds => Some ds
  | None =>
    match s with
    | [] => None
    | _ :: s' => first_unit s'
    end
  end.

(** ** The parts of the unit pattern and what they capture *)

Definition DIGITS : Re.pattern := Re.SUBPATTERN 2 (Re.MAX_REPEAT 1 None Py.isdecimal).
Definition TAIL : Re.pattern :=
  Re.SEQ (Re.MAX_REPEAT 0 (Some 1%nat) separator) (Re.SEQ DIGITS Re.EMPTY).

Definition captured (g : Re.groups) (ds : pystr) : Re.Match :=
  {| Re.m_groups := <[2%nat := ds]> g |}.

(** What [m.group(2)] is for the result of a match or a search. *)
Definition group2 (m : option Re.Match) : option pystr :=
  match m with
  | Some m => Re.group m 2
  | None => None
  end.

(** ** The records and cards the specification describes *)

(** The result record the specification describes. *)
Definition enrich_reference (text category : pystr) : LookupResult :=
  {| unit_number := Some (match first_unit text with
                          | Some ds => ds
                          | None => Py.lit "—"
                          end);
     building := Some (Py.lit "—");
     project := Some (Py.lit "—");
     community := Some (Py.lit "—");
     permit_status := Some (Py.lit "unknown");
     input_type := Some category;
     flags := Some [Py.lit "No data source connected yet (MVP)."] |}.

(** The lines of a card. *)
Definition card_lines (check_id : Z) (result : LookupResult) : list pystr :=
  [Py.lit "✅ Check #" ++ Py.str_of_int check_id;
   [];
   Py.lit "Unit: " ++ get (unit_number result) (Py.lit "—");
   Py.lit "Building: " ++ get (building result) (Py.lit "—");
   Py.lit "Project: " ++ get (project result) (Py.lit "—");
   Py.lit "Community: " ++ get (community result) (Py.lit "—");
   Py.lit "Permit: " ++ get (permit_status result) (Py.lit "unknown");
   Py.lit "Type: " ++ get (input_type result) (Py.lit "—");
   [];
   Py.lit "Flags:"]
  ++ match get (flags result) [] with
     | [] => [Py.lit "—"]
     | fs => List.map (fun f => Py.lit "• " ++ f) fs
     end.

(** The example of the specification's section 8. *)
Definition EXAMPLE_RESULT : LookupResult :=
  {| unit_number := Some (Py.lit "5");
     building := Some (Py.lit "—");
     project := Some (Py.lit "—");
     community := Some (Py.lit "—");
     permit_status := Some (Py.lit "unknown");
     input_type := Some (Py.lit "text");
     flags := Some [Py.lit "No data source connected yet (MVP)."] |}.

(** ** The store *)

Local Open Scope Z_scope.

(** What SQLite accepts as a parameter. *)
Definition fits_int64 (z : Z) : Prop :=
  - 9223372036854775808 <= z <= 9223372036854775807.

Definition encodable (s : pystr) : Prop := existsb Py.is_surrogate s = false.

(** The table still has a free key. *)
Definition has_room (d : Db) : Prop :=
  Z.max (max_rowid (checks d)) (sqlite_sequence d) < MAX_ROWID.

(** PRIMARY KEY: no two rows share an id. *)
Definition primary_key (d : Db) : Prop := NoDup (Row.id <$> checks d).

(** The rows of one user. *)
Definition rows_of (d : Db) (u : Z) : list Row.t :=
  filter (fun r => Row.user_id r = u) (checks d).

Definition newer (a b : Row.t) : Prop := Row.id b < Row.id a.

(** The rows the query picks before it projects the columns. *)
Definition recent_rows (d : Db) (u : Z) (limit : nat) : list Row.t :=
  take limit (merge_sort id_desc (rows_of d u)).

Definition TWO_USERS_DB : Db :=
  {| checks := [Row.Build_t 1 42 (Py.lit "a") (Py.lit "2024-01-01T00:00:00Z");
                Row.Build_t 2 7 (Py.lit "b") (Py.lit "2024-01-02T00:00:00Z");
                Row.Build_t 3 42 (Py.lit "c") (Py.lit "2024-01-03T00:00:00Z")];
     sqlite_sequence := 3 |}.

(** ** The handlers *)

(** The reply to a text message. *)
Definition text_reply (user_id check_id : Z) (payload : pystr) : pystr :=
  Py.lit "(debug) your_user_id=" ++ Py.str_of_int user_id ++ nl ++ nl
  ++ format_card check_id (fake_lookup payload (detect_type payload)).

(** ** Scenarios *)

Definition LISTING : pystr := Py.lit "https://example.com/listing/99".

Definition LISTING_REPLY : pystr :=
  Py.lit "(debug) your_user_id=42" ++ nl ++ nl
  ++ Py.lit "✅ Check #1" ++ nl ++ nl
  ++ Py.lit "Unit: —" ++ nl
  ++ Py.lit "Building: —" ++ nl
  ++ Py.lit "Project: —" ++ nl
  ++ Py.lit "Community: —" ++ nl
  ++ Py.lit "Permit: unknown" ++ nl
  ++ Py.lit "Type: listing_url" ++ nl ++ nl
  ++ Py.lit "Flags:" ++ nl
  ++ Py.lit "• No data source connected yet (MVP).".

Definition MIDNIGHT : datetime :=
  {| year := 2024; month := 1; day := 5;
     hour := 0; minute := 0; second := 0; microsecond := 0 |}.

Definition FRESH_WORLD : World := {| db := empty_db; sent := []; clock := MIDNIGHT |}.

Definition STRANGER_UPDATE : Update :=
  {| effective_user := Some (User.Build_t 8);
     message := Some (Message.Build_t (Py.lit "123456") 1704412800) |}.

Definition BUSY_WORLD : World :=
  {| db := TWO_USERS_DB; sent := []; clock := MIDNIGHT |}.

Definition ALLOWED_UPDATE : Update :=
  {| effective_user := Some (User.Build_t 42);
     message := Some (Message.Build_t (Py.lit "/last") 1704412800) |}.

Definition PADDED_UPDATE : Update :=
  {| effective_user := Some (User.Build_t 42);
     message := Some (Message.Build_t (Py.lit "  unit 7  ") 1704412800) |}.


(** ** Decimal literals *)

(** The number a run of decimal digits denotes, most significant digit
    first, after the digits that gave [acc]. *)
Fixpoint uint_value (d : Decimal.uint) (acc : N) : N :=
  match d with
  | Decimal.Nil => acc
  | Decimal.D0 d => uint_value d (10 * acc)%N
  | Decimal.D1 d => uint_value d (10 * acc + 1)%N
  | Decimal.D2 d => uint_value d (10 * acc + 2)%N
  | Decimal.D3 d => uint_value d (10 * acc + 3)%N
  | Decimal.D4 d => uint_value d (10 * acc + 4)%N
  | Decimal.D5 d => uint_value d (10 * acc + 5)%N
  | Decimal.D6 d => uint_value d (10 * acc + 6)%N
  | Decimal.D7 d => uint_value d (10 * acc + 7)%N
  | Decimal.D8 d => uint_value d (10 * acc + 8)%N
  | Decimal.D9 d => uint_value d (10 * acc + 9)%N
  end.

(** ** The allow-list in plain terms *)

(** The items of the allow-list that are not blank, trimmed. *)
Definition allowed_items (v : option pystr) : list pystr :=
  filter (fun x => x <> []) (Py.strip <$> split 0x2C (or_empty v)).

(** A character that can only separate or pad items. *)
Definition blank_char (c : N) : bool := (c =? 0x2C)%N || Py.isspace c.

(** An integer that [int] reads back with the default digit limit. *)
Definition printable_int (z : Z) : Prop := Z.abs z < 10 ^ 4300.

(** The handlers in the order in which [startup] registers them. *)
Definition registered_handlers (ALLOWED : gset Z) : list (Update -> M unit) :=
  [cmd_start ALLOWED; cmd_help ALLOWED; cmd_last ALLOWED; on_text ALLOWED].

(** ** Worlds and tables *)

(** The world after one more reply. *)
Definition replied (w : World) (s : pystr) : World :=
  {| db := db w; sent := sent w ++ [s]; clock := clock w |}.

(** What one call of a handler says and how it ends: the replies it adds
    and its outcome. *)
Definition answers (h : Update -> M unit) (update : Update) (w : World)
  : list pystr * outcome unit :=
  (drop (length (sent w)) (sent (fst (h update w))), snd (h update w)).

(** Ids are positive and the counter has reached them. *)
Definition ids_in_range (d : Db) : Prop :=
  forall r, r ∈ checks d -> 0 < Row.id r <= sqlite_sequence d.

(** A table numbered 1, 2, ..., n in insertion order, with the counter
    at n: what a table is that started empty. *)
Definition dense (d : Db) : Prop :=
  Row.id <$> checks d = seqZ 1 (Z.of_nat (length (checks d)))
  /\ sqlite_sequence d = Z.of_nat (length (checks d)).

(** ** Time stamps *)

(** The ranges [datetime] keeps its fields in. *)
Definition in_range (t : datetime) : Prop :=
  (year t <= 9999 /\ month t <= 12 /\ day t <= 31 /\ hour t <= 23
   /\ minute t <= 59 /\ second t <= 59 /\ microsecond t <= 999999)%N.

(** The number a string of ASCII digits denotes. *)
Definition digits_value (s : pystr) : N :=
  fold_left (fun acc c => 10 * acc + (c - 0x30))%N s 0%N.

Definition A_MICROSECOND_LATER : datetime :=
  {| year := 2024; month := 1; day := 5;
     hour := 0; minute := 0; second := 0; microsecond := 1 |}.

(** ** Digit runs *)

(** [ds] is a run of digits of [s]: not empty, digits only, and not
    followed in [s] by a digit. *)
Definition digit_run_in (s ds : pystr) : Prop :=
  exists pre post,
    s = pre ++ ds ++ post
    /\ ds <> [] /\ forallb Py.isdecimal ds = true
    /\ match post with
       | [] => True
       | c :: _ => Py.isdecimal c = false
       end.

(* ===================================================================== *)
(** * Facts about strings and the matcher *)
(* ===================================================================== *)

Local Open Scope N_scope.

Lemma drop_while_head {A} (p : A -> bool) (l : list A) :
  Py.drop_while p l = [] \/ exists x l', Py.drop_while p l = x :: l' /\ p x = false.
Proof.
  induction l as [|x l IH]; simpl; [now left|].
  destruct (p x) eqn:E; [exact IH|]. right. now exists x, l.
Qed.

Lemma drop_while_none {A} (p : A -> bool) (l : list A) :
  (forall x, In x l -> p x = false) -> Py.drop_while p l = l.
Proof.
  destruct l as [|x l]; simpl; [reflexivity|].
  intros H. now rewrite (H x (or_introl eq_refl)).
Qed.

Lemma take_while_all {A} (p : A -> bool) (l : list A) :
  forallb p l = true -> Py.take_while p l = l.
Proof.
  induction l as [|x l IH]; simpl; [reflexivity|].
  destruct (p x); simpl; [|discriminate]. intros H. now rewrite IH.
Qed.

Lemma take_while_length_all {A} (p : A -> bool) (l : list A) :
  length (Py.take_while p l) = length l -> forallb p l = true.
Proof.
  induction l as [|x l IH]; simpl; [reflexivity|].
  destruct (p x); simpl; [|discriminate]. intros H. apply IH. congruence.
Qed.

Lemma take_while_length_le {A} (p : A -> bool) (l : list A) :
  (length (Py.take_while p l) <= length l)%nat.
Proof.
  induction l as [|x l IH]; simpl; [lia|]. destruct (p x); simpl; lia.
Qed.

Lemma drop_snoc_singleton {A} (l : list A) (c c' : A) (j : nat) :
  drop j (l ++ [c]) = [c'] -> c' = c.
Proof.
  revert j. induction l as [|x l IH]; intros j; destruct j as [|j]; simpl.
  - congruence.
  - rewrite drop_nil. discriminate.
  - destruct l; simpl; discriminate.
  - apply IH.
Qed.

(** A trimmed string does not end with a white-space character; in
    particular no suffix of it is a lone newline. *)
Lemma strip_suffix_not_space (s : pystr) (j : nat) (c : N) :
  drop j (Py.strip s) = [c] -> Py.isspace c = false.
Proof.
  unfold Py.strip, Py.rstrip.
  destruct (drop_while_head Py.isspace (rev (Py.lstrip s))) as [E | (x & l' & E & Hx)];
    rewrite E; simpl.
  - rewrite drop_nil. discriminate.
  - intros H. apply drop_snoc_singleton in H. now subst.
Qed.

Lemma strip_at_end (s : pystr) (j : nat) :
  Re.at_end (drop j (Py.strip s)) = true -> (length (Py.strip s) <= j)%nat.
Proof.
  destruct (drop j (Py.strip s)) as [|c [|c' r]] eqn:E; simpl; intros H.
  - destruct (Nat.le_gt_cases (length (Py.strip s)) j) as [L | L]; [exact L|].
    apply (f_equal (@length N)) in E. rewrite length_drop in E. simpl in E. lia.
  - apply strip_suffix_not_space in E. apply N.eqb_eq in H. subst c. discriminate.
  - discriminate.
Qed.

Lemma strip_id (s : pystr) :
  (forall c, In c s -> Py.isspace c = false) -> Py.strip s = s.
Proof.
  intros H. unfold Py.strip, Py.rstrip, Py.lstrip.
  rewrite (drop_while_none _ s H).
  rewrite drop_while_none; [apply rev_involutive|].
  intros c Hc. apply H. now apply in_rev.
Qed.

(** ** Repetition *)

Lemma count_bounded (cls : N -> bool) (h : nat) (s : pystr) :
  Re.count cls (Some h) s = Nat.min h (length (Py.take_while cls s)).
Proof.
  revert h. induction s as [|c s IH]; intros [|h]; simpl; try reflexivity.
  destruct (cls c); [rewrite IH|]; reflexivity.
Qed.

Lemma count_zero (cls : N -> bool) (s : pystr) : Re.count cls (Some 0%nat) s = 0%nat.
Proof. destruct s; reflexivity. Qed.

Lemma count_unbounded (cls : N -> bool) (s : pystr) :
  Re.count cls None s = length (Py.take_while cls s).
Proof.
  induction s as [|c s IH]; simpl; [reflexivity|].
  destruct (cls c); simpl; [now rewrite IH | reflexivity].
Qed.

Lemma take_take_while (cls : N -> bool) (s : pystr) :
  take (length (Py.take_while cls s)) s = Py.take_while cls s.
Proof.
  induction s as [|c s IH]; simpl; [reflexivity|].
  destruct (cls c); simpl; [now rewrite IH | reflexivity].
Qed.

(** A repetition followed by a pattern that fails at every length fails. *)
Lemma give_back_none {A} (k : @Re.cont A) pos s g lo extra :
  (forall e, (e <= extra)%nat ->
             k (pos + (lo + e))%nat (drop (lo + e) s) g = None) ->
  Re.give_back k pos s g lo extra = None.
Proof.
  induction extra as [|e IH]; intros H; simpl.
  - now rewrite (H 0%nat (Nat.le_refl _)).
  - rewrite (H (S e) (Nat.le_refl _)). apply IH. intros e' He'. apply H. lia.
Qed.

(** A repetition followed by a pattern that matches at the longest length
    stops there. *)
Lemma give_back_first {A} (k : @Re.cont A) pos s g lo extra r :
  k (pos + (lo + extra))%nat (drop (lo + extra) s) g = Some r ->
  Re.give_back k pos s g lo extra = Some r.
Proof. intros H. destruct extra; simpl; now rewrite H. Qed.

(** ** Words under [re.I] *)

Lemma run_word_i {A} (w : pystr) pos s g (k : @Re.cont A) :
  Re.run (Re.word_i w) pos s g k =
  match ci_prefix w s with
  | Some rest => k (pos + length w)%nat rest g
  | None => None
  end.
Proof.
  unfold Re.word_i. revert pos s. induction w as [|a w IH]; intros pos s; simpl.
  - now rewrite Nat.add_0_r.
  - destruct s as [|c s]; [reflexivity|].
    destruct (Re.literal_ignore a c); [|reflexivity].
    rewrite IH. now replace (S pos + length w)%nat with (pos + S (length w))%nat by lia.
Qed.

Lemma ci_prefix_app (w1 w2 s : pystr) :
  ci_prefix (w1 ++ w2) s =
  match ci_prefix w1 s with
  | Some rest => ci_prefix w2 rest
  | None => None
  end.
Proof.
  revert s. induction w1 as [|a w1 IH]; intros s; simpl; [reflexivity|].
  destruct s as [|c s]; [reflexivity|]. destruct (Re.literal_ignore a c); auto.
Qed.

(** ** The two patterns of the classifier, in plain terms *)

Lemma long_s_not_colon (c : N) :
  Re.literal_ignore 0x73 c = true -> Re.literal_ignore 0x3A c = false.
Proof.
  unfold Re.literal_ignore, Re.is_ascii_upper. simpl.
  rewrite !orb_false_r, !orb_true_iff, !andb_true_iff, !N.eqb_eq, !N.leb_le.
  intros H.
  destruct (N.eqb_spec c 58) as [->|_]; [exfalso; lia|].
  destruct (N.eqb_spec (c + 32) 58) as [E|_]; [|now rewrite andb_false_r].
  assert (c = 26) by lia. subst c. reflexivity.
Qed.

Lemma url_re_match (t : pystr) : Re.found (Re.match_ URL_RE t) = url_scheme t.
Proof.
  unfold Re.match_, URL_RE, url_scheme, istartswith.
  cbn [Re.seq Re.run Nat.eqb].
  rewrite run_word_i.
  change (Py.lit "http://") with (Py.lit "http" ++ Py.lit "://").
  change (Py.lit "https://") with (Py.lit "http" ++ [0x73] ++ Py.lit "://").
  rewrite !ci_prefix_app.
  destruct (ci_prefix (Py.lit "http") t) as [rest|]; [|reflexivity].
  destruct rest as [|c rest].
  - reflexivity.
  - cbn [Re.count].
    assert (Hcolon : forall r, ci_prefix (Py.lit "://") (c :: r) =
                     if Re.literal_ignore 0x3A c then ci_prefix (Py.lit "//") r else None)
      by reflexivity.
    assert (Hs : forall r, ci_prefix ([0x73] ++ Py.lit "://") (c :: r) =
                 if Re.literal_ignore 0x73 c then ci_prefix (Py.lit "://") r else None)
      by reflexivity.
    rewrite Hcolon, Hs.
    destruct (Re.literal_ignore 0x73 c) eqn:E.
    + rewrite (long_s_not_colon c E). rewrite count_zero.
      cbn [Nat.ltb Nat.leb Nat.sub Re.give_back drop Nat.add].
      rewrite !run_word_i, Hcolon, (long_s_not_colon c E), drop_0.
      destruct (ci_prefix (Py.lit "://") rest); reflexivity.
    + cbn [Nat.ltb Nat.leb Nat.sub Re.give_back drop Nat.add].
      rewrite run_word_i, Hcolon, orb_false_r.
      destruct (Re.literal_ignore 58 c); [|reflexivity].
      destruct (ci_prefix (Py.lit "//") rest); reflexivity.
Qed.

Lemma permit_re_match (s : pystr) :
  Re.found (Re.match_ PERMIT_RE (Py.strip s)) = digit_string Py.isdecimal (Py.strip s).
Proof.
  set (t := Py.strip s).
  unfold Re.match_, PERMIT_RE. cbn [Re.seq Re.run Nat.eqb].
  rewrite count_bounded.
  pose proof (take_while_length_le Py.isdecimal t) as Hle.
  set (n := length (Py.take_while Py.isdecimal t)) in *.
  destruct (digit_string Py.isdecimal t) eqn:D; unfold digit_string in D.
  - apply andb_prop in D as [D Hall]. apply andb_prop in D as [H6 H20].
    apply Nat.leb_le in H6, H20.
    assert (Hn : n = length t) by (unfold n; now rewrite take_while_all).
    rewrite Nat.min_r by lia.
    destruct (Nat.ltb_spec n 6) as [L | L]; [lia|].
    erewrite give_back_first; [reflexivity|].
    replace (6 + (n - 6))%nat with (length t) by lia.
    rewrite drop_all. reflexivity.
  - destruct (Nat.ltb_spec (Nat.min 20 n) 6) as [L | L]; [reflexivity|].
    rewrite give_back_none; [reflexivity|].
    intros e He. destruct (Re.at_end (drop (6 + e) t)) eqn:E; [|reflexivity].
    exfalso. apply strip_at_end in E. fold t in E.
    assert (Hn : n = length t) by lia.
    apply take_while_length_all in Hn. rewrite Hn, andb_true_r in D.
    apply andb_false_iff in D as [D | D];
      [apply Nat.leb_gt in D | apply Nat.leb_gt in D]; lia.
Qed.

(** ** Digits are neither white space nor letters *)

Lemma checked_below (P : N -> bool) (b : nat) :
  forallb P (List.map N.of_nat (seq 0 b)) = true ->
  forall c, c < N.of_nat b -> P c = true.
Proof.
  intros H c Hc. rewrite forallb_forall in H. apply H.
  apply in_map_iff. exists (N.to_nat c). split; [apply N2Nat.id|].
  apply in_seq. lia.
Qed.

Lemma isspace_bound (c : N) : Py.isspace c = true -> c < 12289.
Proof.
  unfold Py.isspace.
  rewrite !orb_true_iff, !andb_true_iff, !N.eqb_eq, !N.leb_le. lia.
Qed.

Lemma decimal_not_space (c : N) : Py.isdecimal c = true -> Py.isspace c = false.
Proof.
  intros Hd. destruct (Py.isspace c) eqn:Hs; [|reflexivity].
  apply isspace_bound in Hs as Hb.
  assert (H : implb (Py.isspace c) (negb (Py.isdecimal c)) = true).
  { apply (checked_below (fun c => implb (Py.isspace c) (negb (Py.isdecimal c))) 12289);
      [vm_compute; reflexivity | exact Hb]. }
  rewrite Hs, Hd in H. discriminate.
Qed.

Lemma decimal_not_h (c : N) : Py.isdecimal c = true -> Re.literal_ignore 0x68 c = false.
Proof.
  intros Hd. destruct (Re.literal_ignore 0x68 c) eqn:E; [|reflexivity].
  unfold Re.literal_ignore, Re.is_ascii_upper in E. simpl in E.
  rewrite orb_false_r, orb_true_iff, andb_true_iff, !N.eqb_eq in E.
  assert (c = 104 \/ c = 72) as [-> | ->] by lia; vm_compute in Hd; discriminate.
Qed.

Lemma ascii_digit_decimal (c : N) : Py.is_ascii_digit c = true -> Py.isdecimal c = true.
Proof.
  unfold Py.is_ascii_digit, Py.isdecimal, Py.decimal_zeros. cbn [existsb].
  rewrite andb_true_iff, !N.leb_le. intros [H1 H2].
  replace (48 <=? c) with true by (symmetry; apply N.leb_le; lia).
  replace (c <? 48 + 10) with true by (symmetry; apply N.ltb_lt; lia).
  reflexivity.
Qed.

Lemma decimal_strip (t : pystr) : forallb Py.isdecimal t = true -> Py.strip t = t.
Proof.
  intros H. apply strip_id. intros c Hc. apply decimal_not_space.
  rewrite forallb_forall in H. now apply H.
Qed.

Lemma decimal_no_scheme (t : pystr) : forallb Py.isdecimal t = true -> url_scheme t = false.
Proof.
  destruct t as [|c t]; [reflexivity|]. simpl. intros H.
  apply andb_prop in H as [Hc _].
  unfold url_scheme, istartswith.
  assert (E : forall w, ci_prefix (0x68 :: w) (c :: t) = None).
  { intros w. simpl. now rewrite (decimal_not_h c Hc). }
  change (Py.lit "http://") with (0x68 :: Py.lit "ttp://").
  change (Py.lit "https://") with (0x68 :: Py.lit "ttps://").
  now rewrite !E.
Qed.

Lemma detect_type_classify (text : pystr) :
  detect_type text = classify_by Py.isdecimal text.
Proof.
  unfold detect_type, classify_by. cbv zeta.
  now rewrite url_re_match, permit_re_match.
Qed.

(* ===================================================================== *)
(** * The classifier *)
(* ===================================================================== *)

(** C1, as stated, fails: six Arabic-Indic digits are not ASCII digits,
    so the stated rule answers [text], while [detect_type] answers
    [permit_number], because [\d] in a [str] pattern is every Unicode
    decimal digit. *)
Lemma detect_type_arabic_digits :
  detect_type ARABIC_123456 = Py.lit "permit_number"
  /\ classify_by Py.is_ascii_digit ARABIC_123456 = Py.lit "text"
  /\ detect_type ARABIC_123456 <> classify_by Py.is_ascii_digit ARABIC_123456.
Proof. repeat split; vm_compute; congruence. Qed.

(** C1, amended: [detect_type] is a total function that trims its input
    and answers [listing_url] when the trimmed string starts with
    [http://] or [https://] in any case, else [permit_number] when it is
    6 to 20 Unicode decimal digits and nothing else, else [text].  So
    every string of 6 to 20 ASCII digits is a [permit_number], and an
    all-digit string of length 5 or 21 is [text]. *)
Theorem detect_type_decision :
  (forall text, detect_type text = classify_by Py.isdecimal text)
  /\ (forall t, forallb Py.is_ascii_digit t = true ->
                (6 <= length t <= 20)%nat ->
                detect_type t = Py.lit "permit_number")
  /\ (forall t, forallb Py.isdecimal t = true ->
                length t = 5%nat \/ length t = 21%nat ->
                detect_type t = Py.lit "text").
Proof.
  split; [exact detect_type_classify|]. split.
  - intros t Hd [H6 H20].
    assert (Hdec : forallb Py.isdecimal t = true).
    { rewrite forallb_forall in *. intros c Hc. apply ascii_digit_decimal. now apply Hd. }
    rewrite detect_type_classify. unfold classify_by. cbv zeta.
    rewrite (decimal_strip t Hdec), (decimal_no_scheme t Hdec).
    unfold digit_string. rewrite Hdec.
    apply Nat.leb_le in H6, H20. now rewrite H6, H20.
  - intros t Hdec Hlen.
    rewrite detect_type_classify. unfold classify_by. cbv zeta.
    rewrite (decimal_strip t Hdec), (decimal_no_scheme t Hdec).
    unfold digit_string. destruct Hlen as [-> | ->]; reflexivity.
Qed.

Lemma detect_type_decision_witness :
  detect_type (Py.lit "  HTTPS://example.com ") = Py.lit "listing_url"
  /\ detect_type (Py.lit "123456") = Py.lit "permit_number"
  /\ detect_type (Py.lit "12345") = Py.lit "text"
  /\ detect_type (Py.lit "123456789012345678901") = Py.lit "text".
Proof.
  destruct detect_type_decision as (Hall & H620 & H521).
  split; [rewrite Hall; vm_compute; reflexivity|].
  split; [apply H620; [reflexivity | simpl; lia]|].
  split; apply H521; first [reflexivity | simpl; lia].
Defined.

(* ===================================================================== *)
(** * The enricher *)
(* ===================================================================== *)

(** ** The matcher on the unit pattern *)

Lemma run_digits pos (s : pystr) g :
  Re.run (Re.SEQ DIGITS Re.EMPTY) pos s g Re.accept =
  captured g <$> nonempty (Py.take_while Py.isdecimal s).
Proof.
  unfold DIGITS. cbn [Re.run]. rewrite count_unbounded.
  pose proof (take_take_while Py.isdecimal s) as Ht.
  destruct (Py.take_while Py.isdecimal s) as [|d ds] eqn:E; [reflexivity|].
  cbn [length Nat.ltb Nat.leb]. erewrite give_back_first; [reflexivity|].
  unfold Re.accept, captured. cbn [fmap option_fmap option_map nonempty].
  do 3 f_equal. rewrite <- Ht. f_equal. cbn [length]. lia.
Qed.

Lemma separator_not_decimal (c : N) : separator c = true -> Py.isdecimal c = false.
Proof.
  unfold separator. rewrite !orb_true_iff, !N.eqb_eq.
  intros [[[-> | ->] | ->] | ->]; reflexivity.
Qed.

Lemma run_tail pos (rest : pystr) g :
  Re.run TAIL pos rest g Re.accept = captured g <$> digits_after rest.
Proof.
  unfold TAIL. cbn [Re.run].
  change (fun pos' s' g' => Re.run DIGITS pos' s' g'
            (fun pos'0 s'0 g'0 => Re.accept pos'0 s'0 g'0))
    with (fun pos' s' g' => Re.run (Re.SEQ DIGITS Re.EMPTY) pos' s' g' Re.accept).
  destruct rest as [|c r]; cbn [Re.count digits_after].
  - cbn [Nat.ltb Nat.leb Nat.sub Re.give_back]. now rewrite run_digits.
  - destruct (separator c) eqn:E.
    + rewrite count_zero. cbn [Nat.ltb Nat.leb Nat.sub Re.give_back Nat.add drop].
      rewrite !run_digits, drop_0. cbn [Py.take_while].
      rewrite (separator_not_decimal c E).
      destruct (nonempty (Py.take_while Py.isdecimal r)); reflexivity.
    + cbn [Nat.ltb Nat.leb Nat.sub Re.give_back Nat.add drop].
      rewrite run_digits. destruct (nonempty _); reflexivity.
Qed.

Lemma group2_captured g (o : option pystr) : group2 (captured g <$> o) = o.
Proof.
  destruct o as [ds|]; [|reflexivity].
  unfold captured, group2, Re.group. cbn. apply lookup_insert_eq.
Qed.

(** At one position the matcher finds what [unit_here] describes, and it
    fails only where [unit_here] finds nothing. *)
Lemma run_unit_here pos (s : pystr) :
  match Re.run UNIT_RE pos s ∅ Re.accept with
  | Some m => Re.group m 2 = unit_here s /\ is_Some (unit_here s)
  | None => unit_here s = None
  end.
Proof.
  unfold UNIT_RE. cbn [Re.seq].
  change (Re.SEQ (Re.MAX_REPEAT 0 (Some 1%nat) separator)
            (Re.SEQ (Re.SUBPATTERN 2 (Re.MAX_REPEAT 1 None Py.isdecimal)) Re.EMPTY))
    with TAIL.
  cbn [Re.run]. rewrite !run_word_i.
  unfold unit_here, UNIT_WORDS. cbn [List.map].
  destruct (ci_prefix (Py.lit "unit") s) as [r1|],
           (ci_prefix (Py.lit "apt") s) as [r2|],
           (ci_prefix (Py.lit "apartment") s) as [r3|],
           (ci_prefix (Py.lit "flat") s) as [r4|];
    rewrite ?run_tail;
    repeat match goal with
           | |- context [digits_after ?r] => destruct (digits_after r)
           end;
    cbn [fmap option_fmap option_map first_of];
    first [reflexivity
          | split; [apply (group2_captured _ (Some _)) | eexists; reflexivity]].
Qed.

Lemma search_first_unit pos (s : pystr) :
  group2 (Re.search_from UNIT_RE pos s) = first_unit s.
Proof.
  revert pos. induction s as [|c s IH]; intros pos; cbn [Re.search_from first_unit].
  - pose proof (run_unit_here pos []) as H.
    destruct (Re.run UNIT_RE pos [] ∅ Re.accept) as [m|].
    + destruct H as [H [ds Hds]]. rewrite Hds in *. exact H.
    + now rewrite H.
  - pose proof (run_unit_here pos (c :: s)) as H.
    destruct (Re.run UNIT_RE pos (c :: s) ∅ Re.accept) as [m|].
    + destruct H as [H [ds Hds]]. rewrite Hds in *. exact H.
    + rewrite H. apply IH.
Qed.

Lemma nonempty_cons (l ds : pystr) : nonempty l = Some ds -> exists c r, ds = c :: r.
Proof. destruct l as [|c r]; simpl; [discriminate|]. intros [= <-]. eauto. Qed.

Lemma digits_after_cons (rest ds : pystr) :
  digits_after rest = Some ds -> exists c r, ds = c :: r.
Proof.
  destruct rest as [|c r]; simpl; [discriminate|].
  destruct (separator c); apply nonempty_cons.
Qed.

Lemma unit_here_cons (s ds : pystr) : unit_here s = Some ds -> exists c r, ds = c :: r.
Proof.
  unfold unit_here, UNIT_WORDS. cbn [List.map].
  destruct (ci_prefix (Py.lit "unit") s) as [r1|],
           (ci_prefix (Py.lit "apt") s) as [r2|],
           (ci_prefix (Py.lit "apartment") s) as [r3|],
           (ci_prefix (Py.lit "flat") s) as [r4|];
    repeat match goal with
           | |- context [digits_after ?r] => destruct (digits_after r) eqn:?
           end;
    cbn [first_of]; intros [= <-]; eauto using digits_after_cons.
Qed.

Lemma first_unit_cons (s ds : pystr) : first_unit s = Some ds -> exists c r, ds = c :: r.
Proof.
  induction s as [|c s IH]; cbn [first_unit].
  - destruct (unit_here []) eqn:E; [|discriminate].
    intros [= <-]. eauto using unit_here_cons.
  - destruct (unit_here (c :: s)) eqn:E; [|exact IH].
    intros [= <-]. eauto using unit_here_cons.
Qed.

(** C2: [fake_lookup] is a total function, and for every text and
    category its result is the reference record: the unit number is the
    digit run of the first occurrence of unit, apt, apartment or flat (in
    any case), one optional separator and at least one digit, and the
    dash when there is none; the other fields are the fixed values, the
    flags are the one notice, and the category is handed through.  So
    [apt-12] gives [12] and [no unit info] gives the dash. *)
Theorem fake_lookup_reference :
  (forall text category, fake_lookup text category = enrich_reference text category)
  /\ unit_number (fake_lookup (Py.lit "apt-12") (Py.lit "text")) = Some (Py.lit "12")
  /\ unit_number (fake_lookup (Py.lit "no unit info") (Py.lit "text")) = Some (Py.lit "—").
Proof.
  split; [|split; vm_compute; reflexivity].
  intros text category. unfold fake_lookup, enrich_reference.
  change (match Re.search UNIT_RE text with
          | Some m => Re.group m 2
          | None => None
          end) with (group2 (Re.search_from UNIT_RE 0 text)).
  rewrite search_first_unit.
  destruct (first_unit text) as [ds|] eqn:E; [|reflexivity].
  destruct (first_unit_cons _ _ E) as (c & r & ->). reflexivity.
Qed.

(* ===================================================================== *)
(** * The access gate *)
(* ===================================================================== *)

(** C3: with an empty allow-set every user id is allowed; with a
    non-empty allow-set a user id is allowed exactly when it is a member. *)
Theorem is_allowed_rule (ALLOWED_USER_IDS : gset Z) (u : Z) :
  (ALLOWED_USER_IDS = ∅ -> is_allowed ALLOWED_USER_IDS u = true)
  /\ (ALLOWED_USER_IDS ≠ ∅ ->
      (is_allowed ALLOWED_USER_IDS u = true <-> u ∈ ALLOWED_USER_IDS)).
Proof.
  unfold is_allowed. split.
  - intros ->. now rewrite bool_decide_eq_true_2.
  - intros Hne. rewrite (bool_decide_eq_false_2 _ Hne). simpl.
    apply bool_decide_eq_true.
Qed.

Lemma is_allowed_rule_witness :
  is_allowed ∅ 42 = true
  /\ (is_allowed {[ 7%Z ]} 7 = true <-> 7%Z ∈ ({[ 7%Z ]} : gset Z))
  /\ (is_allowed {[ 7%Z ]} 42 = true <-> 42%Z ∈ ({[ 7%Z ]} : gset Z)).
Proof.
  split; [apply (proj1 (is_allowed_rule ∅ 42)); reflexivity|].
  split; [apply (proj2 (is_allowed_rule {[ 7%Z ]} 7))
         | apply (proj2 (is_allowed_rule {[ 7%Z ]} 42))];
    apply non_empty_singleton_L.
Defined.

(* ===================================================================== *)
(** * The formatter *)
(* ===================================================================== *)

(** C6: a card is its lines joined by newlines: the header with the
    check id, an empty line, the labelled lines Unit, Building, Project,
    Community, Permit and Type in that order, with the dash (for Permit,
    [unknown]) in place of a missing field, an empty line, the line
    [Flags:], and then one bulleted line per flag, or the dash when there
    is no flag.  The example result with id 7 gives the card with the
    header [Check #7] and one bulleted line. *)
Theorem format_card_template :
  (forall check_id result,
      format_card check_id result = Py.join nl (card_lines check_id result))
  /\ format_card 7 EXAMPLE_RESULT =
     Py.lit "✅ Check #7" ++ nl ++ nl
     ++ Py.lit "Unit: 5" ++ nl
     ++ Py.lit "Building: —" ++ nl
     ++ Py.lit "Project: —" ++ nl
     ++ Py.lit "Community: —" ++ nl
     ++ Py.lit "Permit: unknown" ++ nl
     ++ Py.lit "Type: text" ++ nl ++ nl
     ++ Py.lit "Flags:" ++ nl
     ++ Py.lit "• No data source connected yet (MVP).".
Proof.
  split; [|vm_compute; reflexivity].
  intros check_id result. unfold format_card, card_lines.
  destruct (get (flags result) []) as [|f fs];
    cbn [app Py.join List.map]; rewrite <- ?app_assoc; reflexivity.
Qed.

(* ===================================================================== *)
(** * The store *)
(* ===================================================================== *)

Local Open Scope Z_scope.

#[global] Instance id_desc_total : Total id_desc.
Proof. intros a b. unfold id_desc. lia. Qed.

#[global] Instance id_desc_trans : Transitive id_desc.
Proof. intros a b c. unfold id_desc. lia. Qed.

Lemma bind_int_fits (z : Z) : fits_int64 z -> bind_int z = Return z.
Proof.
  unfold fits_int64, bind_int. intros [H1 H2].
  apply Z.leb_le in H1, H2. now rewrite H1, H2.
Qed.

Lemma bind_int_Return (z z' : Z) : bind_int z = Return z' -> z' = z /\ fits_int64 z.
Proof.
  unfold bind_int, fits_int64.
  destruct (Z.leb_spec (- 9223372036854775808) z), (Z.leb_spec z 9223372036854775807);
    simpl; intros [= <-] || discriminate. lia.
Qed.

Lemma bind_text_Return (s s' : pystr) : bind_text s = Return s' -> s' = s /\ encodable s.
Proof.
  unfold bind_text, encodable. destruct (existsb Py.is_surrogate s); [discriminate|].
  now intros [= <-].
Qed.

Lemma max_rowid_ge (rows : list Row.t) (r : Row.t) :
  r ∈ rows -> Row.id r <= max_rowid rows.
Proof.
  unfold max_rowid. induction 1 as [r rows | r r' rows _ IH]; simpl; lia.
Qed.

(** What a successful insert did. *)
Lemma insert_check_Return (d : Db) (u : Z) (p c : pystr) (i : Z) (d' : Db) :
  insert_check d u p c = Return (i, d') ->
  i = Z.max (max_rowid (checks d)) (sqlite_sequence d) + 1
  /\ d' = {| checks := checks d ++ [Row.Build_t i u p c]; sqlite_sequence := i |}
  /\ fits_int64 u /\ encodable p /\ encodable c /\ has_room d.
Proof.
  unfold insert_check, has_room.
  destruct (bind_int u) as [u'|] eqn:Eu; [|discriminate].
  destruct (bind_text p) as [p'|] eqn:Ep; [|discriminate].
  destruct (bind_text c) as [c'|] eqn:Ec; [|discriminate].
  apply bind_int_Return in Eu as [-> Hu].
  apply bind_text_Return in Ep as [-> Hp].
  apply bind_text_Return in Ec as [-> Hc].
  destruct (Z.leb_spec MAX_ROWID (Z.max (max_rowid (checks d)) (sqlite_sequence d)));
    [discriminate|].
  intros [= <- <-]. auto 10.
Qed.

(** When an insert succeeds. *)
Lemma insert_check_succeeds (d : Db) (u : Z) (p c : pystr) :
  fits_int64 u -> encodable p -> encodable c -> has_room d ->
  exists i d', insert_check d u p c = Return (i, d').
Proof.
  unfold insert_check, has_room, bind_text, encodable.
  intros Hu -> -> Hroom. rewrite (bind_int_fits u Hu).
  destruct (Z.leb_spec MAX_ROWID (Z.max (max_rowid (checks d)) (sqlite_sequence d)));
    [lia | eauto].
Qed.

Lemma insert_check_fresh (d : Db) (u : Z) (p c : pystr) (i : Z) (d' : Db) :
  insert_check d u p c = Return (i, d') ->
  forall r, r ∈ checks d -> Row.id r < i.
Proof.
  intros H r Hr. apply insert_check_Return in H as (-> & _).
  apply max_rowid_ge in Hr. lia.
Qed.

Lemma insert_check_primary_key (d : Db) (u : Z) (p c : pystr) (i : Z) (d' : Db) :
  primary_key d -> insert_check d u p c = Return (i, d') -> primary_key d'.
Proof.
  unfold primary_key. intros Hpk H.
  pose proof (insert_check_fresh _ _ _ _ _ _ H) as Hfresh.
  apply insert_check_Return in H as (_ & -> & _). simpl.
  rewrite fmap_app. apply NoDup_app. split; [exact Hpk|]. split.
  - intros x Hx. simpl. rewrite list_elem_of_singleton. intros ->.
    apply list_elem_of_fmap in Hx as (r & E & Hr). apply Hfresh in Hr. lia.
  - apply NoDup_singleton.
Qed.

Lemma primary_key_empty : primary_key empty_db.
Proof. apply NoDup_nil_2. Qed.

(** ** The query *)

Lemma select_recent_rows (d : Db) (u : Z) (limit : nat) :
  fits_int64 u ->
  select_recent d u limit = Return (columns <$> recent_rows d u limit).
Proof. intros Hu. unfold select_recent. now rewrite (bind_int_fits u Hu). Qed.

Lemma sorted_rows_of (d : Db) (u : Z) (r : Row.t) :
  r ∈ merge_sort id_desc (rows_of d u) <-> r ∈ checks d /\ Row.user_id r = u.
Proof.
  rewrite (merge_sort_Permutation id_desc (rows_of d u)).
  unfold rows_of. rewrite list_elem_of_filter. tauto.
Qed.

Lemma recent_rows_length (d : Db) (u : Z) (limit : nat) :
  (length (recent_rows d u limit) <= limit)%nat.
Proof. unfold recent_rows. rewrite length_take. lia. Qed.

Lemma recent_rows_elem (d : Db) (u : Z) (limit : nat) (r : Row.t) :
  r ∈ recent_rows d u limit -> r ∈ checks d /\ Row.user_id r = u.
Proof.
  unfold recent_rows. intros H. apply sorted_rows_of.
  rewrite <- (take_drop limit (merge_sort id_desc (rows_of d u))).
  apply elem_of_app. now left.
Qed.

Lemma recent_rows_sorted (d : Db) (u : Z) (limit : nat) :
  StronglySorted id_desc (recent_rows d u limit).
Proof.
  pose proof (StronglySorted_merge_sort id_desc (rows_of d u)) as H.
  rewrite <- (take_drop limit (merge_sort id_desc (rows_of d u))) in H.
  apply StronglySorted_app in H. apply H.
Qed.

(** A row of the user that the query left out is not newer than any row
    it returned. *)
Lemma recent_rows_most_recent (d : Db) (u : Z) (limit : nat) (r r' : Row.t) :
  r ∈ checks d -> Row.user_id r = u -> r ∉ recent_rows d u limit ->
  r' ∈ recent_rows d u limit -> Row.id r <= Row.id r'.
Proof.
  intros Hr Hu Hout Hin.
  pose proof (StronglySorted_merge_sort id_desc (rows_of d u)) as H.
  assert (Hs : r ∈ merge_sort id_desc (rows_of d u)) by now apply sorted_rows_of.
  rewrite <- (take_drop limit (merge_sort id_desc (rows_of d u))) in H, Hs.
  apply StronglySorted_app in H as (H & _ & _).
  apply elem_of_app in Hs as [Hs | Hs]; [contradiction|].
  exact (H r' r Hin Hs).
Qed.

Lemma recent_rows_none (d : Db) (u : Z) (limit : nat) :
  (forall r, r ∈ checks d -> Row.user_id r <> u) -> recent_rows d u limit = [].
Proof.
  intros H. unfold recent_rows.
  destruct (merge_sort id_desc (rows_of d u)) as [|r l] eqn:E; [apply take_nil|].
  assert (Hr : r ∈ merge_sort id_desc (rows_of d u)) by (rewrite E; left).
  apply sorted_rows_of in Hr as [Hr Hu]. now apply H in Hr.
Qed.

(** With a primary key the order is strict. *)
Lemma sorted_strict (l : list Row.t) :
  StronglySorted id_desc l -> NoDup (Row.id <$> l) -> StronglySorted newer l.
Proof.
  induction 1 as [|x l Hs IH Hx]; intros Hnd; constructor.
  - apply IH. now apply NoDup_cons in Hnd.
  - apply NoDup_cons in Hnd as [Hnotin _].
    rewrite Forall_forall in *. intros y Hy. 
    assert (Row.id y <> Row.id x).
    { intros E. apply Hnotin. rewrite <- E. apply list_elem_of_fmap. eauto. }
    specialize (Hx y Hy). unfold id_desc, newer in *. lia.
Qed.

Lemma recent_rows_NoDup (d : Db) (u : Z) (limit : nat) :
  primary_key d -> NoDup (Row.id <$> recent_rows d u limit).
Proof.
  unfold primary_key, recent_rows. intros Hpk.
  apply (sublist_NoDup _ (Row.id <$> merge_sort id_desc (rows_of d u)));
    [|apply fmap_sublist, sublist_take].
  rewrite (merge_sort_Permutation id_desc (rows_of d u)).
  apply (sublist_NoDup _ (Row.id <$> checks d)); [exact Hpk|].
  apply fmap_sublist. unfold rows_of. apply sublist_filter.
Qed.

Lemma recent_rows_strict (d : Db) (u : Z) (limit : nat) :
  primary_key d -> StronglySorted newer (recent_rows d u limit).
Proof.
  intros Hpk. apply sorted_strict; [apply recent_rows_sorted | now apply recent_rows_NoDup].
Qed.

(** The newest row of a user comes first. *)
Lemma recent_rows_newest (d : Db) (u : Z) (new : Row.t) (old : list Row.t) :
  rows_of d u = old ++ [new] ->
  (forall r, r ∈ old -> Row.id r < Row.id new) ->
  recent_rows d u 1 = [new].
Proof.
  intros E Hnew. unfold recent_rows. rewrite E.
  pose proof (StronglySorted_merge_sort id_desc (old ++ [new])) as Hs.
  pose proof (merge_sort_Permutation id_desc (old ++ [new])) as Hp.
  destruct (merge_sort id_desc (old ++ [new])) as [|h t].
  - apply Permutation_nil_l in Hp. now destruct old.
  - simpl. rewrite take_0. f_equal.
    assert (Hh : h ∈ old ++ [new]) by (rewrite <- Hp; left).
    assert (Hn : new ∈ h :: t) by (rewrite Hp; apply elem_of_app; right; left).
    apply elem_of_app in Hh as [Hh | Hh];
      [|now apply list_elem_of_singleton in Hh].
    apply Hnew in Hh. apply elem_of_cons in Hn as [-> | Hn]; [lia|].
    apply StronglySorted_cons in Hs as [Hs _].
    rewrite Forall_forall in Hs. specialize (Hs new Hn). unfold id_desc in Hs. lia.
Qed.

Lemma rows_of_insert (d : Db) (u : Z) (p c : pystr) (i : Z) (d' : Db) :
  insert_check d u p c = Return (i, d') ->
  rows_of d' u = rows_of d u ++ [Row.Build_t i u p c].
Proof.
  intros H. apply insert_check_Return in H as (_ & -> & _).
  unfold rows_of. simpl. rewrite filter_app. f_equal.
  rewrite filter_cons_True by reflexivity. reflexivity.
Qed.

Lemma insert_then_recent (d : Db) (u : Z) (p c : pystr) (i : Z) (d' : Db) :
  insert_check d u p c = Return (i, d') ->
  select_recent d' u 1 =
  Return [{| sel_id := i; sel_payload := p; sel_created_at := c |}].
Proof.
  intros H.
  pose proof (insert_check_fresh _ _ _ _ _ _ H) as Hfresh.
  pose proof (rows_of_insert _ _ _ _ _ _ H) as Hrows.
  apply insert_check_Return in H as (_ & _ & Hu & _).
  rewrite (select_recent_rows d' u 1 Hu).
  rewrite (recent_rows_newest d' u _ _ Hrows); [reflexivity|].
  intros r Hr. simpl. apply Hfresh.
  unfold rows_of in Hr. now apply list_elem_of_filter in Hr.
Qed.

Lemma insert_twice_increasing (d : Db) (u : Z) (p c : pystr) (i : Z) (d' : Db)
    (u2 : Z) (p2 c2 : pystr) (i2 : Z) (d2 : Db) :
  insert_check d u p c = Return (i, d') ->
  insert_check d' u2 p2 c2 = Return (i2, d2) ->
  i < i2.
Proof.
  intros H1 H2.
  apply insert_check_Return in H1 as (_ & -> & _).
  apply insert_check_Return in H2 as (-> & _). simpl. lia.
Qed.

(** C4: an insert that succeeds gives the new row an id above every id
    in the table, so ids stay unique and grow from one insert to the
    next, and the query for the one most recent row of that user then
    returns exactly the new row; an insert succeeds whenever its
    parameters can be bound and the key space is not used up.  For every
    user and limit the query returns at most [limit] rows, all of them
    rows of that user, in strictly descending order of id, and no row
    when the user has none. *)
Theorem store_contract :
  (forall d u p c,
      primary_key d -> fits_int64 u -> encodable p -> encodable c -> has_room d ->
      exists i d',
        insert_check d u p c = Return (i, d')
        /\ (forall r, r ∈ checks d -> Row.id r < i)
        /\ primary_key d'
        /\ (forall u2 p2 c2 i2 d2,
               insert_check d' u2 p2 c2 = Return (i2, d2) -> i < i2)
        /\ select_recent d' u 1 =
           Return [{| sel_id := i; sel_payload := p; sel_created_at := c |}])
  /\ (forall d u limit,
         primary_key d -> fits_int64 u ->
         exists rows,
           select_recent d u limit = Return (columns <$> rows)
           /\ (length rows <= limit)%nat
           /\ (forall r, r ∈ rows -> r ∈ checks d /\ Row.user_id r = u)
           /\ StronglySorted newer rows
           /\ ((forall r, r ∈ checks d -> Row.user_id r <> u) -> rows = [])).
Proof.
  split.
  - intros d u p c Hpk Hu Hp Hc Hroom.
    destruct (insert_check_succeeds d u p c Hu Hp Hc Hroom) as (i & d' & H).
    exists i, d'. split; [exact H|].
    split; [exact (insert_check_fresh _ _ _ _ _ _ H)|].
    split; [exact (insert_check_primary_key _ _ _ _ _ _ Hpk H)|].
    split; [|exact (insert_then_recent _ _ _ _ _ _ H)].
    intros u2 p2 c2 i2 d2. exact (insert_twice_increasing _ _ _ _ _ _ _ _ _ _ _ H).
  - intros d u limit Hpk Hu. exists (recent_rows d u limit).
    split; [exact (select_recent_rows d u limit Hu)|].
    split; [apply recent_rows_length|].
    split; [apply recent_rows_elem|].
    split; [now apply recent_rows_strict | apply recent_rows_none].
Qed.

Lemma primary_key_two_users : primary_key TWO_USERS_DB.
Proof. apply (bool_decide_unpack _). vm_compute. exact I. Qed.

Lemma store_contract_witness :
  (exists i d',
      insert_check TWO_USERS_DB 42 (Py.lit "d") (Py.lit "2024-01-04T00:00:00Z")
      = Return (i, d')
      /\ (forall r, r ∈ checks TWO_USERS_DB -> Row.id r < i)
      /\ primary_key d'
      /\ (forall u2 p2 c2 i2 d2,
             insert_check d' u2 p2 c2 = Return (i2, d2) -> i < i2)
      /\ select_recent d' 42 1 =
         Return [{| sel_id := i; sel_payload := Py.lit "d";
                    sel_created_at := Py.lit "2024-01-04T00:00:00Z" |}])
  /\ (exists rows,
         select_recent TWO_USERS_DB 42 1 = Return (columns <$> rows)
         /\ (length rows <= 1)%nat
         /\ (forall r, r ∈ rows -> r ∈ checks TWO_USERS_DB /\ Row.user_id r = 42)
         /\ StronglySorted newer rows
         /\ ((forall r, r ∈ checks TWO_USERS_DB -> Row.user_id r <> 42) -> rows = [])).
Proof.
  split.
  - apply (proj1 store_contract TWO_USERS_DB 42);
      [exact primary_key_two_users | unfold fits_int64; lia
      | reflexivity | reflexivity | reflexivity].
  - apply (proj2 store_contract TWO_USERS_DB 42 1%nat);
      [exact primary_key_two_users | unfold fits_int64; lia].
Defined.

(* ===================================================================== *)
(** * The handlers *)
(* ===================================================================== *)

(** ** The time stamp can always be stored *)

Lemma digits_of_uint_encodable (d : Decimal.uint) :
  existsb Py.is_surrogate (Py.digits_of_uint d) = false.
Proof. induction d; simpl; auto. Qed.

Lemma zfill_encodable (width : nat) (s : pystr) :
  existsb Py.is_surrogate s = false ->
  existsb Py.is_surrogate (zfill width s) = false.
Proof.
  intros H. unfold zfill. rewrite existsb_app, H, orb_false_r.
  induction (width - length s)%nat; simpl; auto.
Qed.

Lemma field_encodable (width : nat) (n : N) :
  existsb Py.is_surrogate (zfill width (Py.str_of_N n)) = false.
Proof. apply zfill_encodable, digits_of_uint_encodable. Qed.

Lemma created_at_encodable (now : datetime) : encodable (isoformat now ++ Py.lit "Z").
Proof.
  unfold encodable, isoformat.
  destruct (microsecond now =? 0)%N;
    rewrite !existsb_app, !field_encodable; reflexivity.
Qed.

(** ** A text message from an allowed user *)

Lemma on_text_allowed (ALLOWED : gset Z) (update : Update) (u : User.t)
    (m : Message.t) (w : World) :
  effective_user update = Some u -> message update = Some m ->
  is_allowed ALLOWED (User.id u) = true ->
  fits_int64 (User.id u) -> encodable (Py.strip (Message.text m)) ->
  has_room (db w) ->
  let payload := Py.strip (Message.text m) in
  let i := Z.max (max_rowid (checks (db w))) (sqlite_sequence (db w)) + 1 in
  let created_at := isoformat (clock w) ++ Py.lit "Z" in
  on_text ALLOWED update w =
  ({| db := {| checks := checks (db w) ++ [Row.Build_t i (User.id u) payload created_at];
               sqlite_sequence := i |};
      sent := sent w ++ [text_reply (User.id u) i payload];
      clock := clock w |}, Return tt).
Proof.
  intros Eu Em Hal Hu Hp Hroom payload i created_at.
  destruct (insert_check_succeeds (db w) (User.id u) payload created_at
              Hu Hp (created_at_encodable (clock w)) Hroom) as (i' & d' & H).
  pose proof (insert_check_Return _ _ _ _ _ _ H) as (Ei & Ed & _).
  unfold on_text. rewrite Eu, Em, Hal. cbn [negb].
  unfold mbind, M_bind, utcnow, execute_insert, reply_text.
  fold payload. fold created_at. rewrite H. cbn [db sent clock].
  subst i' d'. reflexivity.
Qed.

(** C5: when user 42 is allowed and the table is empty, the text message
    [https://example.com/listing/99] is classified as [listing_url], the
    look-up finds no unit, the insert creates the row with id 1, and
    exactly one reply is sent; the reply contains [Check #1],
    [Type: listing_url] and [Unit:] with the dash, and it echoes the
    sender's user id. *)
Theorem listing_url_end_to_end (ALLOWED : gset Z) (date : Z) (w : World) :
  is_allowed ALLOWED 42 = true ->
  db w = empty_db ->
  detect_type LISTING = Py.lit "listing_url"
  /\ unit_number (fake_lookup LISTING (Py.lit "listing_url")) = Some (Py.lit "—")
  /\ on_text ALLOWED
       {| effective_user := Some (User.Build_t 42);
          message := Some (Message.Build_t LISTING date) |} w =
     ({| db := {| checks := [Row.Build_t 1 42 LISTING
                               (isoformat (clock w) ++ Py.lit "Z")];
                  sqlite_sequence := 1 |};
         sent := sent w ++ [LISTING_REPLY];
         clock := clock w |}, Return tt)
  /\ Py.contains (Py.lit "Check #1") LISTING_REPLY = true
  /\ Py.contains (Py.lit "Type: listing_url") LISTING_REPLY = true
  /\ Py.contains (Py.lit "Unit: —") LISTING_REPLY = true
  /\ Py.contains (Py.lit "your_user_id=42") LISTING_REPLY = true.
Proof.
  intros Hal Hdb.
  split; [vm_compute; reflexivity|]. split; [vm_compute; reflexivity|].
  split; [|repeat split; vm_compute; reflexivity].
  rewrite (on_text_allowed ALLOWED
             {| effective_user := Some (User.Build_t 42);
                message := Some (Message.Build_t LISTING date) |}
             (User.Build_t 42) (Message.Build_t LISTING date) w
             eq_refl eq_refl Hal);
    [ | unfold fits_int64; simpl; lia | vm_compute; reflexivity
      | rewrite Hdb; reflexivity ].
  rewrite Hdb. cbv zeta. cbn [Message.text User.id].
  change (Z.max (max_rowid (checks empty_db)) (sqlite_sequence empty_db) + 1) with 1.
  assert (Es : Py.strip LISTING = LISTING) by (vm_compute; reflexivity).
  rewrite Es.
  assert (Er : text_reply 42 1 LISTING = LISTING_REPLY) by (vm_compute; reflexivity).
  now rewrite Er.
Qed.

Lemma listing_url_end_to_end_witness :
  on_text {[ 42 ]}
    {| effective_user := Some (User.Build_t 42);
       message := Some (Message.Build_t LISTING 1704412800) |} FRESH_WORLD =
  ({| db := {| checks := [Row.Build_t 1 42 LISTING (Py.lit "2024-01-05T00:00:00Z")];
               sqlite_sequence := 1 |};
      sent := [LISTING_REPLY];
      clock := MIDNIGHT |}, Return tt).
Proof.
  exact (proj1 (proj2 (proj2
    (listing_url_end_to_end {[ 42 ]} 1704412800 FRESH_WORLD eq_refl eq_refl)))).
Defined.

(** ** Refusals and dropped events *)

(** C7: when the sender is not allowed, each of the four handlers leaves
    the database as it is and sends one reply, the refusal string. *)
Theorem refusal_without_change (ALLOWED : gset Z) (update : Update)
    (u : User.t) (m : Message.t) (w : World) :
  effective_user update = Some u -> message update = Some m ->
  is_allowed ALLOWED (User.id u) = false ->
  let refused := {| db := db w;
                    sent := sent w ++ [Py.lit "⛔️ Private bot."];
                    clock := clock w |} in
  on_text ALLOWED update w = (refused, Return tt)
  /\ cmd_start ALLOWED update w = (refused, Return tt)
  /\ cmd_help ALLOWED update w = (refused, Return tt)
  /\ cmd_last ALLOWED update w = (refused, Return tt).
Proof.
  intros Eu Em Hal refused.
  unfold on_text, cmd_start, cmd_help, cmd_last.
  rewrite Eu, Em, Hal. repeat split.
Qed.

Lemma refusal_without_change_witness :
  let refused := {| db := TWO_USERS_DB; sent := [Py.lit "⛔️ Private bot."];
                    clock := MIDNIGHT |} in
  on_text {[ 42 ]} STRANGER_UPDATE BUSY_WORLD = (refused, Return tt)
  /\ cmd_start {[ 42 ]} STRANGER_UPDATE BUSY_WORLD = (refused, Return tt)
  /\ cmd_help {[ 42 ]} STRANGER_UPDATE BUSY_WORLD = (refused, Return tt)
  /\ cmd_last {[ 42 ]} STRANGER_UPDATE BUSY_WORLD = (refused, Return tt).
Proof.
  exact (refusal_without_change {[ 42 ]} STRANGER_UPDATE (User.Build_t 8)
           (Message.Build_t (Py.lit "123456") 1704412800) BUSY_WORLD
           eq_refl eq_refl eq_refl).
Defined.

(** C9: an update without a user or without a message is dropped by each
    of the four handlers, whatever the allow-set: the world is unchanged,
    so nothing is sent and nothing is stored. *)
Theorem malformed_event_dropped (ALLOWED : gset Z) (update : Update) (w : World) :
  effective_user update = None \/ message update = None ->
  on_text ALLOWED update w = (w, Return tt)
  /\ cmd_start ALLOWED update w = (w, Return tt)
  /\ cmd_help ALLOWED update w = (w, Return tt)
  /\ cmd_last ALLOWED update w = (w, Return tt).
Proof.
  unfold on_text, cmd_start, cmd_help, cmd_last.
  destruct (effective_user update) as [u|], (message update) as [m|];
    intros [H | H]; try discriminate H; repeat split.
Qed.

Lemma malformed_event_dropped_witness :
  (on_text ∅ {| effective_user := None;
                message := Some (Message.Build_t LISTING 0) |} BUSY_WORLD
   = (BUSY_WORLD, Return tt))
  /\ (cmd_last {[ 42 ]} {| effective_user := Some (User.Build_t 42);
                           message := None |} BUSY_WORLD
      = (BUSY_WORLD, Return tt)).
Proof.
  split.
  - apply (malformed_event_dropped ∅
             {| effective_user := None;
                message := Some (Message.Build_t LISTING 0) |} BUSY_WORLD).
    left. reflexivity.
  - apply (malformed_event_dropped {[ 42 ]}
             {| effective_user := Some (User.Build_t 42); message := None |}
             BUSY_WORLD).
    right. reflexivity.
Defined.

(** ** [/last] *)

Lemma recent_rows_count (d : Db) (u : Z) (limit : nat) :
  length (recent_rows d u limit) = Nat.min limit (length (rows_of d u)).
Proof.
  unfold recent_rows. rewrite length_take.
  now rewrite (Permutation_length (merge_sort_Permutation id_desc (rows_of d u))).
Qed.

(** C8: for an allowed user [/last] takes the rows of that user with the
    five largest ids, newest first (all of them when there are fewer);
    when the user has no row the one reply is [Nog geen checks.];
    otherwise the one reply is the header line and, for every row in
    that order, a line made of [#], the id, the dash, the first 60
    characters of the payload and the time stamp in parentheses. *)
Theorem cmd_last_reply (ALLOWED : gset Z) (update : Update)
    (u : User.t) (m : Message.t) (w : World) :
  effective_user update = Some u -> message update = Some m ->
  is_allowed ALLOWED (User.id u) = true ->
  fits_int64 (User.id u) ->
  let rows := recent_rows (db w) (User.id u) 5 in
  let line := fun r : Row.t =>
                Py.lit "#" ++ Py.str_of_int (Row.id r) ++ Py.lit " — "
                ++ take 60 (Row.payload r) ++ Py.lit " (" ++ Row.created_at r
                ++ Py.lit ")" in
  let reply := match rows with
               | [] => Py.lit "Nog geen checks."
               | _ => Py.join nl (Py.lit "🕘 Laatste checks:" :: (line <$> rows))
               end in
  cmd_last ALLOWED update w =
    ({| db := db w; sent := sent w ++ [reply]; clock := clock w |}, Return tt)
  /\ length rows = Nat.min 5 (length (rows_of (db w) (User.id u)))
  /\ (forall r, r ∈ rows -> r ∈ checks (db w) /\ Row.user_id r = User.id u)
  /\ StronglySorted id_desc rows
  /\ (forall r r', r ∈ checks (db w) -> Row.user_id r = User.id u ->
                   r ∉ rows -> r' ∈ rows -> Row.id r <= Row.id r')
  /\ ((forall r, r ∈ checks (db w) -> Row.user_id r <> User.id u) ->
      reply = Py.lit "Nog geen checks.").
Proof.
  intros Eu Em Hal Hu rows line reply.
  split; [|split; [apply recent_rows_count|]; split; [apply recent_rows_elem|];
           split; [apply recent_rows_sorted|];
           split; [apply recent_rows_most_recent|]].
  - unfold cmd_last. rewrite Eu, Em, Hal. cbn [negb].
    unfold mbind, M_bind, execute_select.
    rewrite (select_recent_rows (db w) (User.id u) 5 Hu).
    subst reply. fold rows. destruct rows as [|r rows]; [reflexivity|].
    assert (El : List.map last_line (columns <$> r :: rows) = line <$> r :: rows).
    { generalize (r :: rows). intros l.
      induction l as [|r' l IH]; [reflexivity|].
      cbn [fmap list_fmap List.map] in *. now rewrite IH. }
    cbn [fmap list_fmap] in *. unfold reply_text. cbn [app]. now rewrite El.
  - intros Hnone. subst reply rows.
    now rewrite (recent_rows_none (db w) (User.id u) 5 Hnone).
Qed.

Lemma cmd_last_reply_witness :
  cmd_last {[ 42 ]} ALLOWED_UPDATE BUSY_WORLD =
  ({| db := TWO_USERS_DB;
      sent := [Py.lit "🕘 Laatste checks:" ++ nl
               ++ Py.lit "#3 — c (2024-01-03T00:00:00Z)" ++ nl
               ++ Py.lit "#1 — a (2024-01-01T00:00:00Z)"];
      clock := MIDNIGHT |}, Return tt).
Proof.
  refine (proj1 (cmd_last_reply {[ 42 ]} ALLOWED_UPDATE (User.Build_t 42)
                   (Message.Build_t (Py.lit "/last") 1704412800) BUSY_WORLD
                   eq_refl eq_refl eq_refl _)).
  unfold fits_int64. simpl. lia.
Defined.

(** ** What a text message stores *)

(** C10, as stated, fails: the payload stored for the text
    [  unit 7  ] is [unit 7], not the text as it was received. *)
Lemma on_text_stores_trimmed :
  Row.payload <$> checks (db (fst (on_text ∅ PADDED_UPDATE FRESH_WORLD)))
  = [Py.lit "unit 7"]
  /\ Row.payload <$> checks (db (fst (on_text ∅ PADDED_UPDATE FRESH_WORLD)))
     <> [Py.lit "  unit 7  "].
Proof. split; vm_compute; congruence. Qed.

(** C10, amended: for a text message from an allowed user whose id and
    text can be stored, the handler returns and adds exactly one row; its
    payload is the text with the white space at both ends removed, its
    user is the sender, and its time stamp is the handler's own clock
    reading in ISO format followed by [Z], whatever date the message
    carries. *)
Theorem on_text_persists (ALLOWED : gset Z) (update : Update)
    (u : User.t) (m : Message.t) (w : World) :
  effective_user update = Some u -> message update = Some m ->
  is_allowed ALLOWED (User.id u) = true ->
  fits_int64 (User.id u) -> encodable (Py.strip (Message.text m)) ->
  has_room (db w) ->
  exists w' i,
    on_text ALLOWED update w = (w', Return tt)
    /\ checks (db w') =
       checks (db w)
       ++ [Row.Build_t i (User.id u) (Py.strip (Message.text m))
             (isoformat (clock w) ++ Py.lit "Z")]
    /\ (forall r, r ∈ checks (db w) -> Row.id r < i)
    /\ forall date',
         db (fst (on_text ALLOWED
                    {| effective_user := Some u;
                       message := Some (Message.Build_t (Message.text m) date') |} w))
         = db w'.
Proof.
  intros Eu Em Hal Hu Hp Hroom.
  rewrite (on_text_allowed ALLOWED update u m w Eu Em Hal Hu Hp Hroom).
  eexists _, _. split; [reflexivity|]. split; [reflexivity|]. split.
  - intros r Hr. apply max_rowid_ge in Hr. lia.
  - intros date'.
    rewrite (on_text_allowed ALLOWED
               {| effective_user := Some u;
                  message := Some (Message.Build_t (Message.text m) date') |}
               u (Message.Build_t (Message.text m) date') w
               eq_refl eq_refl Hal Hu Hp Hroom).
    reflexivity.
Qed.

Lemma on_text_persists_witness :
  exists w' i,
    on_text ∅ PADDED_UPDATE FRESH_WORLD = (w', Return tt)
    /\ checks (db w') =
       checks (db FRESH_WORLD)
       ++ [Row.Build_t i 42 (Py.strip (Py.lit "  unit 7  "))
             (isoformat (clock FRESH_WORLD) ++ Py.lit "Z")]
    /\ (forall r, r ∈ checks (db FRESH_WORLD) -> Row.id r < i)
    /\ forall date',
         db (fst (on_text ∅
                    {| effective_user := Some (User.Build_t 42);
                       message := Some (Message.Build_t (Py.lit "  unit 7  ") date') |}
                    FRESH_WORLD))
         = db w'.
Proof.
  refine (on_text_persists ∅ PADDED_UPDATE (User.Build_t 42)
            (Message.Build_t (Py.lit "  unit 7  ") 1704412800) FRESH_WORLD
            eq_refl eq_refl eq_refl _ _ _).
  - unfold fits_int64. simpl. lia.
  - vm_compute. reflexivity.
  - reflexivity.
Defined.

(* ===================================================================== *)
(** * Decimal literals: printing and parsing *)
(* ===================================================================== *)

Local Open Scope N_scope.

Lemma uint_value_spec (d : Decimal.uint) (acc : N) :
  uint_value d acc =
  DecimalPos.Unsigned.of_lu (Decimal.rev d)
  + acc * 10 ^ DecimalPos.Unsigned.usize d.
Proof.
  revert acc.
  induction d; intros acc; cbn [uint_value DecimalPos.Unsigned.usize];
    [simpl; lia | ..];
    unfold Decimal.rev; cbn [Decimal.revapp];
    match goal with
    | |- context [Decimal.revapp d (?c Decimal.Nil)] =>
      rewrite (DecimalPos.Unsigned.of_lu_revapp d (c Decimal.Nil))
    end;
    fold (Decimal.rev d); rewrite IHd; cbn [DecimalPos.Unsigned.of_lu];
    rewrite N.pow_succ_r'; ring.
Qed.

Lemma uint_value_to_uint (n : N) : uint_value (N.to_uint n) 0 = n.
Proof.
  rewrite uint_value_spec, N.mul_0_l, N.add_0_r.
  rewrite <- DecimalPos.Unsigned.of_uint_alt. apply (DecimalN.Unsigned.of_to n).
Qed.

(** A printed number has no leading zero, so it is at least the power of
    ten its length announces. *)
Lemma to_uint_nzhead (p : positive) : Decimal.nzhead (Pos.to_uint p) = Pos.to_uint p.
Proof.
  pose proof (DecimalPos.Unsigned.to_of (Pos.to_uint p)) as H.
  rewrite DecimalPos.Unsigned.of_to in H. cbn [N.to_uint] in H.
  pose proof (DecimalPos.Unsigned.to_uint_nonzero p) as Hnz.
  assert (Hh : Decimal.nzhead (Pos.to_uint p) <> Decimal.Nil).
  { intros E. apply Hnz. rewrite H. now apply unorm_0. }
  rewrite <- (unorm_nzhead _ Hh). now symmetry.
Qed.

Lemma nzhead_lower_bound (d : Decimal.uint) :
  Decimal.nzhead d = d -> d <> Decimal.Nil ->
  10 ^ (DecimalPos.Unsigned.usize d - 1) <= uint_value d 0.
Proof.
  intros Hn Hd. destruct d; try congruence;
    try (cbn [uint_value DecimalPos.Unsigned.usize];
         rewrite uint_value_spec, N.sub_1_r, N.pred_succ;
         set (x := 10 ^ DecimalPos.Unsigned.usize d); nia).
  exfalso. cbn [Decimal.nzhead] in Hn. exact (nzhead_nonzero _ _ Hn).
Qed.

Lemma usize_bound (n k : N) :
  0 < k -> n < 10 ^ k -> DecimalPos.Unsigned.usize (N.to_uint n) <= k.
Proof.
  intros Hk Hn. destruct n as [|p]; [simpl; lia|]. cbn [N.to_uint].
  pose proof (nzhead_lower_bound (Pos.to_uint p) (to_uint_nzhead p)
                (DecimalPos.Unsigned.to_uint_nonnil p)) as H.
  change (Pos.to_uint p) with (N.to_uint (Npos p)) in H at 2.
  rewrite uint_value_to_uint in H.
  assert (Hlt : 10 ^ (DecimalPos.Unsigned.usize (Pos.to_uint p) - 1) < 10 ^ k) by lia.
  apply N.pow_lt_mono_r_iff in Hlt; lia.
Qed.

Lemma usize_nonnil (d : Decimal.uint) :
  d <> Decimal.Nil -> 0 < DecimalPos.Unsigned.usize d.
Proof. destruct d; simpl; intros H; try lia. congruence. Qed.

(** ** What [int] sees in an ASCII digit *)

Ltac bool_arith :=
  repeat match goal with
         | |- context [?a <=? ?b] => destruct (N.leb_spec a b)
         | |- context [?a <? ?b] => destruct (N.ltb_spec a b)
         | |- context [?a =? ?b] => destruct (N.eqb_spec a b)
         end;
  simpl; try reflexivity; try discriminate; try lia.

Lemma ascii_digit_range (c : N) : Py.is_ascii_digit c = true -> 48 <= c <= 57.
Proof. unfold Py.is_ascii_digit. rewrite andb_true_iff, !N.leb_le. tauto. Qed.

Lemma ascii_digit_to_ascii (c : N) : Py.is_ascii_digit c = true -> to_ascii c = c.
Proof. intros H%ascii_digit_range. unfold to_ascii. bool_arith. Qed.

Lemma ascii_digit_not_space (c : N) :
  Py.is_ascii_digit c = true -> ascii_isspace c = false.
Proof. intros H%ascii_digit_range. unfold ascii_isspace. bool_arith. Qed.

Lemma ascii_digit_not_isspace (c : N) :
  Py.is_ascii_digit c = true -> Py.isspace c = false.
Proof.
  intros H%ascii_digit_range.
  assert (c = 48 \/ c = 49 \/ c = 50 \/ c = 51 \/ c = 52 \/ c = 53 \/ c = 54
          \/ c = 55 \/ c = 56 \/ c = 57)%N as Hc by lia.
  repeat destruct Hc as [-> | Hc]; try subst c; reflexivity.
Qed.

Lemma digits_of_uint_digits (d : Decimal.uint) :
  forallb Py.is_ascii_digit (Py.digits_of_uint d) = true.
Proof. induction d; simpl; auto. Qed.

Lemma to_ascii_digits (l : pystr) :
  forallb Py.is_ascii_digit l = true -> List.map to_ascii l = l.
Proof.
  induction l as [|c l IH]; simpl; [reflexivity|].
  intros [Hc Hl]%andb_prop. now rewrite (ascii_digit_to_ascii c Hc), IH.
Qed.

Lemma scan_digit_step (c : N) (s : pystr) (acc n : N) :
  Py.is_ascii_digit c = true ->
  scan_digits (c :: s) false acc n = scan_digits s false (10 * acc + (c - 48)) (n + 1).
Proof.
  intros H. cbn [scan_digits]. rewrite H.
  apply ascii_digit_range in H. now destruct (N.eqb_spec c 95); [lia|].
Qed.

Lemma scan_digits_of_uint (d : Decimal.uint) (acc n : N) :
  scan_digits (Py.digits_of_uint d) false acc n =
  Some (uint_value d acc, n + DecimalPos.Unsigned.usize d, []).
Proof.
  revert acc n.
  induction d; intros acc n;
    cbn [Py.digits_of_uint uint_value DecimalPos.Unsigned.usize];
    [cbn [scan_digits]; now rewrite N.add_0_r | ..];
    rewrite scan_digit_step by reflexivity; rewrite IHd;
    apply (f_equal Some);
    (apply (f_equal2 pair);
     [apply (f_equal2 pair); [apply (f_equal (uint_value d))|] | reflexivity]);
    lia.
Qed.

(** [int] of a printed run of digits, with or without a minus sign. *)
Lemma py_int_digits (d : Decimal.uint) :
  d <> Decimal.Nil -> DecimalPos.Unsigned.usize d <= MAX_STR_DIGITS ->
  py_int (Py.digits_of_uint d) = Some (Z.of_N (uint_value d 0))
  /\ py_int (0x2D :: Py.digits_of_uint d) = Some (- Z.of_N (uint_value d 0))%Z.
Proof.
  intros Hd Hmax.
  pose proof (digits_of_uint_digits d) as Hl.
  pose proof (usize_nonnil d Hd) as Hpos.
  pose proof (scan_digits_of_uint d 0 0) as Hscan.
  unfold py_int. cbn [List.map]. rewrite (to_ascii_digits _ Hl).
  change (to_ascii 45) with 45. cbn [Py.drop_while ascii_isspace].
  change (ascii_isspace 45) with false. cbv iota.
  destruct (Py.digits_of_uint d) as [|c r] eqn:E.
  { destruct d; simpl in E; congruence. }
  apply andb_prop in Hl as [Hc _].
  pose proof (ascii_digit_range c Hc) as Hr.
  cbn [Py.drop_while]. rewrite (ascii_digit_not_space c Hc).
  change (45 =? 43) with false. change (45 =? 45) with true. cbv iota.
  destruct (N.eqb_spec c 43); [lia|]. destruct (N.eqb_spec c 45); [lia|].
  cbn [fst snd]. destruct (N.eqb_spec c 95); [lia|].
  rewrite Hscan. rewrite N.add_0_l.
  destruct (N.ltb_spec MAX_STR_DIGITS (DecimalPos.Unsigned.usize d)); [lia|].
  destruct (N.eqb_spec (DecimalPos.Unsigned.usize d) 0); [lia|].
  split; reflexivity.
Qed.

Lemma py_int_printed (z : Z) : printable_int z -> py_int (Py.str_of_int z) = Some z.
Proof.
  unfold printable_int. intros Hz.
  destruct z as [|p|p]; [reflexivity | ..]; cbn [Py.str_of_int]; unfold Py.str_of_N;
    assert (Hn : Npos p < 10 ^ 4300)
      by (apply N2Z.inj_lt; rewrite N2Z.inj_pow; exact Hz);
    pose proof (usize_bound (Npos p) 4300 eq_refl Hn) as Hu;
    destruct (py_int_digits (N.to_uint (Npos p))
                (DecimalPos.Unsigned.to_uint_nonnil p) Hu) as [Hpos Hneg];
    [rewrite Hpos | rewrite Hneg]; now rewrite uint_value_to_uint.
Qed.

(** ** Splitting and joining *)

Lemma split_no_sep (sep : N) (x : pystr) :
  ~ In sep x -> split sep x = [x].
Proof.
  induction x as [|c x IH]; [reflexivity|]. intros H. cbn [split].
  destruct (N.eqb_spec c sep) as [->|_]; [exfalso; apply H; now left|].
  rewrite IH; [reflexivity|]. intros Hx. apply H. now right.
Qed.

Lemma split_app_sep (sep : N) (x rest : pystr) :
  ~ In sep x -> split sep (x ++ sep :: rest) = x :: split sep rest.
Proof.
  induction x as [|c x IH]; intros H; cbn [app split].
  - now rewrite N.eqb_refl.
  - destruct (N.eqb_spec c sep) as [->|_]; [exfalso; apply H; now left|].
    rewrite IH; [reflexivity|]. intros Hx. apply H. now right.
Qed.

Lemma split_join (sep : N) (xs : list pystr) :
  xs <> [] -> (forall x, In x xs -> ~ In sep x) ->
  split sep (Py.join [sep] xs) = xs.
Proof.
  induction xs as [|x xs IH]; [congruence|]. intros _ H.
  destruct xs as [|y ys].
  - apply split_no_sep, H. now left.
  - change (Py.join [sep] (x :: y :: ys)) with (x ++ sep :: Py.join [sep] (y :: ys)).
    rewrite split_app_sep by (apply H; now left).
    f_equal. apply IH; [discriminate|]. intros z Hz. apply H. now right.
Qed.

(** Every character of the text is the separator or sits in an item. *)
Lemma split_covers (sep : N) (s : pystr) (c : N) :
  In c s -> c = sep \/ exists x, In x (split sep s) /\ In c x.
Proof.
  induction s as [|a s IH]; [contradiction|]. cbn [split].
  destruct (N.eqb_spec a sep) as [->|Hne]; intros [<- | Hc].
  - now left.
  - destruct (IH Hc) as [-> | (x & Hx & Hcx)]; [now left|].
    right. exists x. split; [now right | exact Hcx].
  - right. destruct (split sep s) as [|item items];
      eexists; (split; [now left | now left]).
  - destruct (IH Hc) as [-> | (x & Hx & Hcx)]; [now left|]. right.
    destruct (split sep s) as [|item items]; [contradiction|].
    destruct Hx as [<- | Hx].
    + exists (a :: item). split; [now left | now right].
    + exists x. split; [now right | exact Hcx].
Qed.

(** No item holds the separator, and an item holds only characters of
    the text. *)
Lemma split_items (sep : N) (s x : pystr) (c : N) :
  In x (split sep s) -> In c x -> In c s /\ c <> sep.
Proof.
  revert x. induction s as [|a s IH]; intros x; cbn [split].
  - intros [<- | []] [].
  - destruct (N.eqb_spec a sep) as [->|Hne].
    + intros [<- | Hx] Hc; [contradiction|].
      destruct (IH x Hx Hc). split; [now right | assumption].
    + destruct (split sep s) as [|item items].
      * intros [<- | []] [<- | []]. split; [now left | assumption].
      * intros [<- | Hx] Hc.
        -- destruct Hc as [<- | Hc]; [split; [now left | assumption]|].
           destruct (IH item (or_introl eq_refl) Hc). split; [now right | assumption].
        -- destruct (IH x (or_intror Hx) Hc). split; [now right | assumption].
Qed.

(** ** Trimming *)

Lemma drop_while_nil {A} (p : A -> bool) (l : list A) :
  Py.drop_while p l = [] <-> forallb p l = true.
Proof.
  induction l as [|x l IH]; simpl; [tauto|].
  destruct (p x); simpl; [exact IH|]. split; discriminate.
Qed.

Lemma drop_while_keeps {A} (p : A -> bool) (l : list A) (x : A) :
  In x l -> p x = false -> In x (Py.drop_while p l).
Proof.
  induction l as [|a l IH]; [contradiction|]. simpl. intros [<- | Hx] Hp.
  - rewrite Hp. now left.
  - destruct (p a); [now apply IH | now right].
Qed.

Lemma drop_while_snoc {A} (p : A -> bool) (l : list A) (x : A) :
  p x = false -> Py.drop_while p (l ++ [x]) = Py.drop_while p l ++ [x].
Proof.
  intros Hp. induction l as [|a l IH]; simpl; [now rewrite Hp|].
  destruct (p a); [exact IH | reflexivity].
Qed.

Lemma forallb_rev {A} (p : A -> bool) (l : list A) :
  forallb p (rev l) = forallb p l.
Proof.
  induction l as [|a l IH]; [reflexivity|]. simpl.
  rewrite forallb_app, IH. simpl. rewrite andb_true_r. apply andb_comm.
Qed.

(** A text is trimmed to nothing exactly when it is all white space. *)
Lemma strip_nil (s : pystr) : Py.strip s = [] <-> forallb Py.isspace s = true.
Proof.
  unfold Py.strip, Py.rstrip, Py.lstrip. split.
  - intros H. apply (f_equal (@rev N)) in H. rewrite rev_involutive in H.
    simpl in H. apply drop_while_nil in H. rewrite forallb_rev in H.
    destruct (drop_while_head Py.isspace s) as [E | (x & l & E & Hx)].
    + now apply drop_while_nil.
    + rewrite E in H. simpl in H. now rewrite Hx in H.
  - intros H. apply drop_while_nil in H. now rewrite H.
Qed.

Lemma strip_keeps (s : pystr) (c : N) :
  In c s -> Py.isspace c = false -> In c (Py.strip s).
Proof.
  intros Hc Hs. unfold Py.strip, Py.rstrip, Py.lstrip.
  apply in_rev. rewrite rev_involutive.
  apply drop_while_keeps; [|exact Hs]. apply in_rev. rewrite rev_involutive.
  now apply drop_while_keeps.
Qed.

(** ** The allow-list *)

Lemma allowed_items_cons_blank (x : pystr) (items : list pystr) :
  Py.strip x = [] ->
  filter (fun x => x <> []) (Py.strip <$> x :: items)
  = filter (fun x => x <> []) (Py.strip <$> items).
Proof. intros E. cbn [fmap list_fmap]. rewrite E. now rewrite filter_cons_False by tauto. Qed.

Lemma allowed_items_cons (x : pystr) (items : list pystr) (c : N) (x' : pystr) :
  Py.strip x = c :: x' ->
  filter (fun x => x <> []) (Py.strip <$> x :: items)
  = (c :: x') :: filter (fun x => x <> []) (Py.strip <$> items).
Proof. intros E. cbn [fmap list_fmap]. rewrite E. now rewrite filter_cons_True by discriminate. Qed.

Lemma add_allowed_good (items : list pystr) (acc : gset Z) :
  (forall x, x ∈ filter (fun x => x <> []) (Py.strip <$> items) -> is_Some (py_int x)) ->
  exists ids,
    add_allowed items acc = Loaded ids
    /\ forall u, u ∈ ids <->
                 u ∈ acc \/ exists x, x ∈ filter (fun x => x <> []) (Py.strip <$> items)
                                      /\ py_int x = Some u.
Proof.
  revert acc. induction items as [|x items IH]; intros acc H.
  - exists acc. split; [reflexivity|]. intros u. split; [now left|].
    intros [Hu | (x & Hx & _)]; [exact Hu|]. now apply elem_of_nil in Hx.
  - cbn [add_allowed]. destruct (Py.strip x) as [|c x'] eqn:E.
    + rewrite (allowed_items_cons_blank x items E) in *. now apply IH.
    + rewrite (allowed_items_cons x items c x' E) in *.
      destruct (H (c :: x')) as [n Hn]; [left|]. rewrite Hn.
      destruct (IH ({[ n ]} ∪ acc)) as (ids & Hids & Hmem).
      { intros y Hy. apply H. now right. }
      exists ids. split; [exact Hids|]. intros u. rewrite Hmem.
      rewrite elem_of_union, elem_of_singleton. split.
      * intros [[-> | Hu] | (y & Hy & Hyu)].
        -- right. exists (c :: x'). split; [left | exact Hn].
        -- now left.
        -- right. exists y. split; [now right | exact Hyu].
      * intros [Hu | (y & Hy & Hyu)]; [left; now right|].
        apply elem_of_cons in Hy as [-> | Hy].
        -- left. left. congruence.
        -- right. now exists y.
Qed.

Lemma add_allowed_bad (items : list pystr) (acc : gset Z) :
  (exists x, x ∈ filter (fun x => x <> []) (Py.strip <$> items) /\ py_int x = None) ->
  add_allowed items acc = Crashed ValueError.
Proof.
  revert acc. induction items as [|x items IH]; intros acc (y & Hy & Hbad).
  - now apply elem_of_nil in Hy.
  - cbn [add_allowed]. destruct (Py.strip x) as [|c x'] eqn:E.
    + rewrite (allowed_items_cons_blank x items E) in Hy. apply IH. eauto.
    + rewrite (allowed_items_cons x items c x' E) in Hy.
      destruct (py_int (c :: x')) as [n|] eqn:En; [|reflexivity].
      apply IH. exists y. split; [|exact Hbad].
      apply elem_of_cons in Hy as [-> | Hy]; [congruence | exact Hy].
Qed.

Lemma parse_allowed_good (v : option pystr) :
  (forall x, x ∈ allowed_items v -> is_Some (py_int x)) ->
  exists ids, parse_allowed v = Loaded ids
              /\ forall u, u ∈ ids <->
                           exists x, x ∈ allowed_items v /\ py_int x = Some u.
Proof.
  unfold parse_allowed, allowed_items.
  intros H. destruct (add_allowed_good _ ∅ H) as (ids & Hids & Hmem).
  exists ids. split; [exact Hids|]. intros u. rewrite Hmem.
  split; [intros [Hu | Hx]; [now apply elem_of_empty in Hu | exact Hx] | now right].
Qed.

Lemma parse_allowed_bad (v : option pystr) :
  (exists x, x ∈ allowed_items v /\ py_int x = None) ->
  parse_allowed v = Crashed ValueError.
Proof. apply add_allowed_bad. Qed.

(** X1: the allow-set is the set of the integers that the non-blank
    items of the comma-separated list denote, whatever their order and
    however often they occur; one item that is not an integer literal
    makes the import fail with [ValueError]. *)
Theorem parse_allowed_items (v : option pystr) :
  ((forall x, x ∈ allowed_items v -> is_Some (py_int x)) ->
   exists ids, parse_allowed v = Loaded ids
               /\ forall u, u ∈ ids <->
                            exists x, x ∈ allowed_items v /\ py_int x = Some u)
  /\ ((exists x, x ∈ allowed_items v /\ py_int x = None) ->
      parse_allowed v = Crashed ValueError).
Proof. split; [apply parse_allowed_good | apply parse_allowed_bad]. Qed.

Lemma parse_allowed_items_witness :
  (exists ids, parse_allowed (Some (Py.lit " 12, ,-5,12,")) = Loaded ids
               /\ forall u, u ∈ ids <->
                  exists x, x ∈ allowed_items (Some (Py.lit " 12, ,-5,12,"))
                            /\ py_int x = Some u)
  /\ parse_allowed (Some (Py.lit "1,x")) = Crashed ValueError.
Proof.
  split.
  - apply (proj1 (parse_allowed_items (Some (Py.lit " 12, ,-5,12,")))).
    intros x Hx. vm_compute in Hx.
    repeat (apply elem_of_cons in Hx as [-> | Hx]);
      [vm_compute; eauto .. | now apply elem_of_nil in Hx].
  - apply (proj2 (parse_allowed_items (Some (Py.lit "1,x")))).
    exists (Py.lit "x"). split; [|reflexivity].
    vm_compute. apply list_elem_of_further, list_elem_of_here.
Defined.

(** ** Open mode *)

Lemma blank_items (v : option pystr) :
  forallb blank_char (or_empty v) = true -> allowed_items v = [].
Proof.
  intros H. unfold allowed_items.
  induction (split 0x2C (or_empty v)) as [|x items IH] eqn:E in H |- *;
    [reflexivity|].
  assert (Hall : forall y, In y (split 0x2C (or_empty v)) -> Py.strip y = []).
  { intros y Hy. apply strip_nil, forallb_forall. intros c Hc.
    destruct (split_items _ _ _ _ Hy Hc) as [Hin Hne].
    rewrite forallb_forall in H. specialize (H c Hin). unfold blank_char in H.
    apply N.eqb_neq in Hne. now rewrite Hne in H. }
  rewrite E in Hall. clear E IH H.
  induction (x :: items) as [|y l IH]; [reflexivity|].
  rewrite allowed_items_cons_blank by (apply Hall; now left).
  apply IH. intros z Hz. apply Hall. now right.
Qed.

Lemma items_blank (v : option pystr) :
  allowed_items v = [] -> forallb blank_char (or_empty v) = true.
Proof.
  unfold allowed_items. intros H. apply forallb_forall. intros c Hc.
  unfold blank_char. destruct (N.eqb_spec c 0x2C) as [|Hne]; [reflexivity|]. simpl.
  destruct (split_covers 0x2C _ c Hc) as [-> | (x & Hx & Hcx)]; [congruence|].
  destruct (Py.isspace c) eqn:Hs; [reflexivity|]. exfalso.
  assert (Hin : Py.strip x ∈ filter (fun x => x <> []) (Py.strip <$> split 0x2C (or_empty v))).
  { apply list_elem_of_filter. split.
    - intros E. pose proof (strip_keeps x c Hcx Hs) as Hk. now rewrite E in Hk.
    - apply list_elem_of_fmap. exists x. split; [reflexivity|].
      now apply list_elem_of_In. }
  rewrite H in Hin. now apply elem_of_nil in Hin.
Qed.

(** X2: when the import succeeds, every user is allowed exactly when the
    variable is unset, empty, or made of commas and white space only; and
    with such a value the import of the list always succeeds. *)
Theorem open_mode_iff_blank (v : option pystr) :
  (forallb blank_char (or_empty v) = true -> parse_allowed v = Loaded ∅)
  /\ (forall ids, parse_allowed v = Loaded ids ->
        ((forall u, is_allowed ids u = true) <->
         forallb blank_char (or_empty v) = true)).
Proof.
  assert (Hblank : forallb blank_char (or_empty v) = true -> parse_allowed v = Loaded ∅).
  { intros H. apply blank_items in H.
    destruct (add_allowed_good (split 0x2C (or_empty v)) ∅) as (ids & Hids & Hmem).
    - fold (allowed_items v). rewrite H. intros x Hx. now apply elem_of_nil in Hx.
    - unfold parse_allowed. rewrite Hids. f_equal. apply set_eq. intros u.
      rewrite Hmem. fold (allowed_items v). rewrite H. split.
      + intros [Hu | (x & Hx & _)]; [exact Hu | now apply elem_of_nil in Hx].
      + intros Hu. now left. }
  split; [exact Hblank|]. intros ids Hids. split.
  - intros Hopen. apply items_blank.
    destruct (allowed_items v) as [|x items] eqn:E; [reflexivity|]. exfalso.
    destruct (py_int x) as [n|] eqn:En.
    + assert (Hn : n ∈ ids).
      { destruct (parse_allowed_good v) as (ids' & Hids' & Hmem).
        - intros y Hy. destruct (py_int y) eqn:Ey; [eauto|].
          rewrite (parse_allowed_bad v) in Hids by eauto. discriminate.
        - rewrite Hids in Hids'. injection Hids' as <-. apply Hmem.
          exists x. split; [rewrite E; left | exact En]. }
      destruct (exist_fresh ids) as [u Hu]. specialize (Hopen u).
      unfold is_allowed in Hopen. apply orb_prop in Hopen as [H | H].
      * apply bool_decide_eq_true in H. rewrite H in Hn. now apply elem_of_empty in Hn.
      * apply bool_decide_eq_true in H. contradiction.
    + rewrite (parse_allowed_bad v) in Hids; [discriminate|].
      exists x. split; [rewrite E; left | exact En].
  - intros H u. rewrite (Hblank H) in Hids. injection Hids as <-. reflexivity.
Qed.

Lemma open_mode_iff_blank_witness :
  parse_allowed (Some (Py.lit " , ,")) = Loaded ∅
  /\ ((forall u, is_allowed {[ 7%Z ]} u = true) <->
      forallb blank_char (or_empty (Some (Py.lit "7"))) = true).
Proof.
  split.
  - apply (proj1 (open_mode_iff_blank (Some (Py.lit " , ,")))). reflexivity.
  - apply (proj2 (open_mode_iff_blank (Some (Py.lit "7"))) {[ 7%Z ]}).
    vm_compute. reflexivity.
Defined.

(** ** Printed ids read back *)

Lemma str_of_int_chars (z : Z) (c : N) :
  In c (Py.str_of_int z) -> c = 45 \/ Py.is_ascii_digit c = true.
Proof.
  pose proof (digits_of_uint_digits) as Hd.
  destruct z as [|p|p]; cbn [Py.str_of_int]; unfold Py.str_of_N.
  - intros [<- | []]. now right.
  - intros Hc. right. specialize (Hd (N.to_uint (Npos p))).
    rewrite forallb_forall in Hd. now apply Hd.
  - intros [<- | Hc]; [now left|]. right. specialize (Hd (N.to_uint (Npos p))).
    rewrite forallb_forall in Hd. now apply Hd.
Qed.

Lemma str_of_int_strip (z : Z) : Py.strip (Py.str_of_int z) = Py.str_of_int z.
Proof.
  apply strip_id. intros c Hc.
  destruct (str_of_int_chars z c Hc) as [-> | H]; [reflexivity|].
  now apply ascii_digit_not_isspace.
Qed.

Lemma str_of_int_no_comma (z : Z) : ~ In 0x2C (Py.str_of_int z).
Proof.
  intros Hc. destruct (str_of_int_chars z _ Hc) as [H | H]; discriminate.
Qed.

Lemma str_of_int_nonempty (z : Z) : Py.str_of_int z <> [].
Proof.
  destruct z as [|p|p]; cbn [Py.str_of_int]; unfold Py.str_of_N; try discriminate.
  pose proof (DecimalPos.Unsigned.to_uint_nonnil p) as H. cbn [N.to_uint].
  destruct (Pos.to_uint p); simpl; congruence.
Qed.

Lemma add_allowed_printed (l : list Z) (acc : gset Z) :
  Forall printable_int l ->
  add_allowed (Py.str_of_int <$> l) acc = Loaded (list_to_set l ∪ acc).
Proof.
  revert acc. induction l as [|z l IH]; intros acc H.
  - cbn. f_equal. set_solver.
  - apply Forall_cons in H as [Hz Hl]. cbn [fmap list_fmap add_allowed].
    rewrite str_of_int_strip.
    pose proof (str_of_int_nonempty z) as Hne. pose proof (py_int_printed z Hz) as Hint.
    destruct (Py.str_of_int z) as [|c x]; [congruence|]. rewrite Hint.
    fold (fmap (M := list) Py.str_of_int l). rewrite (IH _ Hl).
    f_equal. cbn [list_to_set]. set_solver.
Qed.

(** X3: a number printed as the replies print it is read back by [int]
    as the same number, and a list of ids printed that way and joined
    with commas, set as the allow-list, gives exactly the set of those
    ids; so the id that a reply echoes can be pasted into the variable. *)
Theorem printed_ids_read_back :
  (forall z, printable_int z -> py_int (Py.str_of_int z) = Some z)
  /\ (forall l, Forall printable_int l ->
        parse_allowed (Some (Py.join (Py.lit ",") (Py.str_of_int <$> l)))
        = Loaded (list_to_set l)).
Proof.
  split; [exact py_int_printed|]. intros l Hl. unfold parse_allowed.
  cbn [or_empty]. destruct l as [|z l]; [reflexivity|].
  rewrite split_join.
  - rewrite (add_allowed_printed _ ∅ Hl). f_equal. set_solver.
  - discriminate.
  - intros x Hx. apply list_elem_of_In, list_elem_of_fmap in Hx as (y & -> & _).
    apply str_of_int_no_comma.
Qed.

Lemma printed_ids_read_back_witness :
  py_int (Py.str_of_int (-9223372036854775808)) = Some (-9223372036854775808)%Z
  /\ parse_allowed (Some (Py.join (Py.lit ",") (Py.str_of_int <$> [42; -7; 42]%Z)))
     = Loaded (list_to_set [42; -7; 42]%Z).
Proof.
  split.
  - apply (proj1 printed_ids_read_back). unfold printable_int. vm_compute. reflexivity.
  - apply (proj2 printed_ids_read_back).
    repeat constructor; unfold printable_int; vm_compute; reflexivity.
Defined.

(** ** The outcome of the import *)

Lemma classic_items (items : list pystr) :
  (forall x, x ∈ items -> is_Some (py_int x))
  \/ (exists x, x ∈ items /\ py_int x = None).
Proof.
  induction items as [|x items [IH | (y & Hy & Hbad)]].
  - left. intros x Hx. now apply elem_of_nil in Hx.
  - destruct (py_int x) eqn:E.
    + left. intros y [-> | Hy]%elem_of_cons; [rewrite E; eauto | now apply IH].
    + right. exists x. split; [left | exact E].
  - right. exists y. split; [now right | exact Hbad].
Qed.


(** X4: the import succeeds exactly when every non-blank item of the
    allow-list is an integer literal and the token is set and not empty;
    a bad item raises [ValueError] whether or not there is a token, and
    a missing token raises [RuntimeError] only when the list is good.
    The database path is the variable when it is set, even to the empty
    string, and [bot.db] otherwise. *)
Theorem load_config_outcome (environ : gmap pystr pystr) :
  let items := allowed_items (environ !! Py.lit "ALLOWED_USER_IDS") in
  let token := default [] (environ !! Py.lit "BOT_TOKEN") in
  match load_config environ with
  | Loaded cfg =>
    (forall x, x ∈ items -> is_Some (py_int x))
    /\ token <> []
    /\ Config.BOT_TOKEN cfg = token
    /\ parse_allowed (environ !! Py.lit "ALLOWED_USER_IDS")
       = Loaded (Config.ALLOWED_USER_IDS cfg)
    /\ Config.DB_PATH cfg = default (Py.lit "bot.db") (environ !! Py.lit "DB_PATH")
  | Crashed ValueError => exists x, x ∈ items /\ py_int x = None
  | Crashed RuntimeError =>
    (forall x, x ∈ items -> is_Some (py_int x)) /\ token = []
  end.
Proof.
  intros items token. unfold load_config. fold token.
  assert (Hgood : forall ids,
             parse_allowed (environ !! Py.lit "ALLOWED_USER_IDS") = Loaded ids ->
             forall x, x ∈ items -> is_Some (py_int x)).
  { intros ids Hids x Hx. destruct (py_int x) eqn:E; [eauto|].
    rewrite parse_allowed_bad in Hids by eauto. discriminate. }
  destruct (parse_allowed (environ !! Py.lit "ALLOWED_USER_IDS")) as [ids|e] eqn:Ep.
  - destruct token as [|c t] eqn:Et.
    + split; [now apply (Hgood ids) | reflexivity].
    + repeat split; try reflexivity; [now apply (Hgood ids) | discriminate].
  - assert (He : e = ValueError /\ exists x, x ∈ items /\ py_int x = None).
    { destruct (classic_items items) as [Hall | Hbad].
      - destruct (parse_allowed_good _ Hall) as (ids & Hids & _). congruence.
      - rewrite (parse_allowed_bad _ Hbad) in Ep. injection Ep as <-. now split. }
    destruct He as [-> He]. exact He.
Qed.

(* ===================================================================== *)
(** * The handlers as a whole *)
(* ===================================================================== *)

Local Open Scope Z_scope.

(** What [on_text] does once the sender is known and allowed. *)
Lemma on_text_unfold (ALLOWED : gset Z) (update : Update) (u : User.t)
    (m : Message.t) (w : World) :
  effective_user update = Some u -> message update = Some m ->
  is_allowed ALLOWED (User.id u) = true ->
  on_text ALLOWED update w =
  match insert_check (db w) (User.id u) (Py.strip (Message.text m))
          (isoformat (clock w) ++ Py.lit "Z") with
  | Return (i, d) =>
    ({| db := d;
        sent := sent w ++ [text_reply (User.id u) i (Py.strip (Message.text m))];
        clock := clock w |}, Return tt)
  | Raise e => (w, Raise e)
  end.
Proof.
  intros Eu Em Hal. unfold on_text. rewrite Eu, Em, Hal. cbn [negb].
  unfold mbind, M_bind, utcnow, execute_insert, reply_text.
  destruct (insert_check _ _ _ _) as [[i d]|e]; reflexivity.
Qed.

(** One step of any registered handler: the update is dropped, or one
    reply is sent, or the handler raises, or a check is stored and
    answered. *)
Lemma handler_step (ALLOWED : gset Z) (h : Update -> M unit) (update : Update)
    (w : World) :
  h ∈ registered_handlers ALLOWED ->
  h update w = (w, Return tt)
  \/ (exists s, h update w = (replied w s, Return tt))
  \/ (exists e, h update w = (w, Raise e))
  \/ (exists u m i d,
        h = on_text ALLOWED
        /\ effective_user update = Some u /\ message update = Some m
        /\ insert_check (db w) (User.id u) (Py.strip (Message.text m))
             (isoformat (clock w) ++ Py.lit "Z") = Return (i, d)
        /\ h update w =
           ({| db := d;
               sent := sent w ++ [text_reply (User.id u) i (Py.strip (Message.text m))];
               clock := clock w |}, Return tt)).
Proof.
  unfold registered_handlers. rewrite !elem_of_cons, elem_of_nil.
  intros [-> | [-> | [-> | [-> | []]]]].
  - unfold cmd_start. destruct (effective_user update) as [u|], (message update) as [m|];
      try (now left). destruct (is_allowed ALLOWED (User.id u)); right; left; eexists; reflexivity.
  - unfold cmd_help. destruct (effective_user update) as [u|], (message update) as [m|];
      try (now left). destruct (is_allowed ALLOWED (User.id u)); right; left; eexists; reflexivity.
  - unfold cmd_last. destruct (effective_user update) as [u|], (message update) as [m|];
      try (now left).
    destruct (is_allowed ALLOWED (User.id u)); cbn [negb];
      [|right; left; eexists; reflexivity].
    unfold mbind, M_bind, execute_select.
    destruct (select_recent (db w) (User.id u) 5) as [[|r rows]|e].
    + right; left; eexists; reflexivity.
    + right; left; eexists; reflexivity.
    + right; right; left. eexists; reflexivity.
  - destruct (effective_user update) as [u|] eqn:Eu, (message update) as [m|] eqn:Em;
      try (left; unfold on_text; rewrite ?Eu, ?Em; reflexivity).
    destruct (is_allowed ALLOWED (User.id u)) eqn:Hal.
    + rewrite (on_text_unfold ALLOWED update u m w Eu Em Hal).
      destruct (insert_check _ _ _ _) as [[i d]|e] eqn:Ei.
      * right; right; right. exists u, m, i, d. auto.
      * right; right; left. eexists; reflexivity.
    + right; left. unfold on_text. rewrite Eu, Em, Hal. eexists; reflexivity.
Qed.

Lemma commands_keep_db (ALLOWED : gset Z) (h : Update -> M unit)
    (update : Update) (w : World) :
  h ∈ [cmd_start ALLOWED; cmd_help ALLOWED; cmd_last ALLOWED] ->
  db (fst (h update w)) = db w.
Proof.
  rewrite !elem_of_cons, elem_of_nil. intros [-> | [-> | [-> | []]]].
  - unfold cmd_start. destruct (effective_user update), (message update);
      try destruct (is_allowed _ _); reflexivity.
  - unfold cmd_help. destruct (effective_user update), (message update);
      try destruct (is_allowed _ _); reflexivity.
  - unfold cmd_last. destruct (effective_user update), (message update);
      try destruct (is_allowed _ _); cbn [negb]; try reflexivity.
    unfold mbind, M_bind, execute_select.
    destruct (select_recent _ _ _) as [[|? ?]|?]; reflexivity.
Qed.

(** X5: a handler never changes or removes a stored row and never
    touches the clock: the table afterwards is the table before with at
    most one row added, at most one reply is sent per update, and the
    three command handlers leave the database exactly as it was. *)
Theorem handlers_append_only (ALLOWED : gset Z) (h : Update -> M unit)
    (update : Update) (w : World) :
  h ∈ registered_handlers ALLOWED ->
  let w' := fst (h update w) in
  (exists rows, checks (db w') = checks (db w) ++ rows /\ (length rows <= 1)%nat)
  /\ (exists replies, sent w' = sent w ++ replies /\ (length replies <= 1)%nat)
  /\ clock w' = clock w
  /\ (h ∈ [cmd_start ALLOWED; cmd_help ALLOWED; cmd_last ALLOWED] -> db w' = db w).
Proof.
  intros Hh w'. subst w'.
  pose proof (commands_keep_db ALLOWED h update w) as Hcmd.
  destruct (handler_step ALLOWED h update w Hh) as
      [E | [(s & E) | [(e & E) | (u & m & i & d & _ & _ & _ & Hi & E)]]];
    rewrite E in *; cbn [fst db sent clock replied] in *;
    try (apply insert_check_Return in Hi as (_ & -> & _); cbn [checks]);
    (split; [eexists; split; [symmetry; apply app_nil_r || reflexivity | simpl; lia]
            | split; [eexists; split; [symmetry; apply app_nil_r || reflexivity | simpl; lia]
                     | split; [reflexivity | exact Hcmd]]]).
Qed.

Lemma handlers_append_only_witness :
  let w' := fst (on_text {[ 42 ]} PADDED_UPDATE BUSY_WORLD) in
  (exists rows, checks (db w') = checks (db BUSY_WORLD) ++ rows /\ (length rows <= 1)%nat)
  /\ (exists replies, sent w' = sent BUSY_WORLD ++ replies /\ (length replies <= 1)%nat)
  /\ clock w' = clock BUSY_WORLD
  /\ (on_text {[ 42 ]} ∈ [cmd_start {[ 42 ]}; cmd_help {[ 42 ]}; cmd_last {[ 42 ]}] ->
      db w' = db BUSY_WORLD).
Proof.
  apply (handlers_append_only {[ 42 ]} (on_text {[ 42 ]}) PADDED_UPDATE BUSY_WORLD).
  unfold registered_handlers. rewrite !elem_of_cons. auto.
Defined.



(** ** When the handlers raise *)


Lemma fits_int64_dec (z : Z) : fits_int64 z \/ ~ fits_int64 z.
Proof. unfold fits_int64. lia. Qed.




(** ** What the handlers keep true of the table *)

Lemma insert_check_in_range (d : Db) (u : Z) (p c : pystr) (i : Z) (d' : Db) :
  ids_in_range d -> insert_check d u p c = Return (i, d') -> ids_in_range d'.
Proof.
  unfold ids_in_range. intros Hr H.
  pose proof (insert_check_fresh _ _ _ _ _ _ H) as Hfresh.
  apply insert_check_Return in H as (Hi & -> & _). cbn [checks sqlite_sequence].
  assert (H0 : 0 <= max_rowid (checks d)).
  { unfold max_rowid. induction (List.map Row.id (checks d)); simpl; lia. }
  intros r [Hr' | ->%list_elem_of_singleton]%elem_of_app.
  - specialize (Hr r Hr'). specialize (Hfresh r Hr'). lia.
  - cbn [Row.id]. lia.
Qed.

(** X8: every handler keeps the table well keyed: if no two rows share
    an id, every id is positive and the counter has reached every id,
    then the same holds after the handler, whatever the update; and it
    holds of the empty table. *)
Theorem handlers_keep_keys (ALLOWED : gset Z) (h : Update -> M unit)
    (update : Update) (w : World) :
  h ∈ registered_handlers ALLOWED ->
  (primary_key empty_db /\ ids_in_range empty_db)
  /\ (primary_key (db w) -> ids_in_range (db w) ->
      primary_key (db (fst (h update w))) /\ ids_in_range (db (fst (h update w)))).
Proof.
  intros Hh. split.
  { split; [apply NoDup_nil_2 | intros r Hr; now apply elem_of_nil in Hr]. }
  intros Hpk Hr.
  destruct (handler_step ALLOWED h update w Hh) as
      [E | [(s & E) | [(e & E) | (u & m & i & d & _ & _ & _ & Hi & E)]]];
    rewrite E; cbn [fst db replied]; auto.
  split; [exact (insert_check_primary_key _ _ _ _ _ _ Hpk Hi)
         | exact (insert_check_in_range _ _ _ _ _ _ Hr Hi)].
Qed.

Lemma primary_key_busy : primary_key (db BUSY_WORLD).
Proof. apply (bool_decide_unpack _). vm_compute. exact I. Qed.

Lemma ids_in_range_busy : ids_in_range (db BUSY_WORLD).
Proof.
  intros r Hr. change (sqlite_sequence (db BUSY_WORLD)) with 3.
  change (checks (db BUSY_WORLD)) with (checks TWO_USERS_DB) in Hr.
  unfold TWO_USERS_DB in Hr. cbn [checks] in Hr.
  repeat (apply elem_of_cons in Hr as [-> | Hr]); cbn [Row.id]; try lia.
  now apply elem_of_nil in Hr.
Qed.

Lemma handlers_keep_keys_witness :
  primary_key (db (fst (on_text {[ 42 ]} PADDED_UPDATE BUSY_WORLD)))
  /\ ids_in_range (db (fst (on_text {[ 42 ]} PADDED_UPDATE BUSY_WORLD))).
Proof.
  apply (handlers_keep_keys {[ 42 ]} (on_text {[ 42 ]}) PADDED_UPDATE BUSY_WORLD).
  - unfold registered_handlers. rewrite !elem_of_cons. auto.
  - exact primary_key_busy.
  - exact ids_in_range_busy.
Defined.

(** ** Numbering from an empty table *)

Lemma dense_max_rowid (d : Db) : dense d -> max_rowid (checks d) <= sqlite_sequence d.
Proof.
  intros [Hids Hseq]. rewrite Hseq. unfold max_rowid.
  change (List.map Row.id (checks d)) with (Row.id <$> checks d). rewrite Hids.
  generalize (length (checks d)). intros n. induction n as [|n IH]; [reflexivity|].
  rewrite seqZ_S, fold_right_app. cbn [fold_right].
  assert (G : forall l a, a <= fold_right Z.max a l /\
                          fold_right Z.max a l <= Z.max a (fold_right Z.max 0 l)).
  { induction l as [|x l IHl]; intros a; cbn [fold_right]; [lia|].
    specialize (IHl a). lia. }
  specialize (G (seqZ 1 (Z.of_nat n)) (Z.max (1 + Z.of_nat n) 0)). lia.
Qed.

Lemma insert_check_dense (d : Db) (u : Z) (p c : pystr) (i : Z) (d' : Db) :
  dense d -> insert_check d u p c = Return (i, d') ->
  i = Z.of_nat (length (checks d)) + 1 /\ dense d'.
Proof.
  intros Hd H. pose proof (dense_max_rowid d Hd) as Hmax.
  destruct Hd as [Hids Hseq].
  apply insert_check_Return in H as (Hi & -> & _).
  assert (Ei : i = Z.of_nat (length (checks d)) + 1) by lia.
  split; [exact Ei|]. unfold dense. cbn [checks sqlite_sequence].
  rewrite length_app, fmap_app, Hids. cbn [length fmap list_fmap Row.id].
  replace (length (checks d) + 1)%nat with (S (length (checks d))) by lia.
  rewrite seqZ_S. split; [f_equal; f_equal; lia | lia].
Qed.

(** X9: in a table that started empty the checks are numbered 1, 2, 3,
    ... without gaps: the numbering holds of the empty table, every
    handler keeps it, and an insert into such a table returns the number
    of rows stored so far plus one. *)
Theorem checks_numbered_from_one (ALLOWED : gset Z) (h : Update -> M unit)
    (update : Update) (w : World) :
  h ∈ registered_handlers ALLOWED ->
  dense empty_db
  /\ (dense (db w) -> dense (db (fst (h update w))))
  /\ (forall u p c i d',
         dense (db w) -> insert_check (db w) u p c = Return (i, d') ->
         i = Z.of_nat (length (checks (db w))) + 1).
Proof.
  intros Hh. split; [split; reflexivity|]. split.
  - intros Hd.
    destruct (handler_step ALLOWED h update w Hh) as
        [E | [(s & E) | [(e & E) | (u & m & i & d & _ & _ & _ & Hi & E)]]];
      rewrite E; cbn [fst db replied]; auto.
    exact (proj2 (insert_check_dense _ _ _ _ _ _ Hd Hi)).
  - intros u p c i d' Hd Hi. exact (proj1 (insert_check_dense _ _ _ _ _ _ Hd Hi)).
Qed.

Lemma dense_busy : dense (db BUSY_WORLD).
Proof. split; reflexivity. Qed.

Lemma checks_numbered_from_one_witness :
  dense (db (fst (on_text {[ 42 ]} PADDED_UPDATE BUSY_WORLD)))
  /\ (forall u p c i d',
         dense (db BUSY_WORLD) -> insert_check (db BUSY_WORLD) u p c = Return (i, d') ->
         i = Z.of_nat (length (checks (db BUSY_WORLD))) + 1).
Proof.
  destruct (checks_numbered_from_one {[ 42 ]} (on_text {[ 42 ]}) PADDED_UPDATE BUSY_WORLD)
    as (_ & Hkeep & Hnext).
  - unfold registered_handlers. rewrite !elem_of_cons. auto.
  - split; [exact (Hkeep dense_busy) | exact Hnext].
Defined.

(** ** The newest check and the other users *)

Lemma NoDup_fmap_eq {A B} (f : A -> B) (l : list A) (x y : A) :
  NoDup (f <$> l) -> x ∈ l -> y ∈ l -> f x = f y -> x = y.
Proof.
  induction l as [|a l IH]; intros Hnd Hx Hy E; [now apply elem_of_nil in Hx|].
  cbn [fmap list_fmap] in Hnd. apply NoDup_cons in Hnd as [Hnotin Hnd].
  apply elem_of_cons in Hx as [-> | Hx]; apply elem_of_cons in Hy as [-> | Hy].
  - reflexivity.
  - exfalso. apply Hnotin. rewrite E. now apply list_elem_of_fmap_2.
  - exfalso. apply Hnotin. rewrite <- E. now apply list_elem_of_fmap_2.
  - now apply IH.
Qed.

(** Sorting a list that ends with its newest row puts that row first and
    leaves the order of the others as it was. *)
Lemma merge_sort_newest (old : list Row.t) (new : Row.t) :
  NoDup (Row.id <$> old ++ [new]) ->
  (forall r, r ∈ old -> Row.id r < Row.id new) ->
  merge_sort id_desc (old ++ [new]) = new :: merge_sort id_desc old.
Proof.
  intros Hnd Hnew.
  assert (Hperm : merge_sort id_desc (old ++ [new]) ≡ₚ new :: merge_sort id_desc old).
  { rewrite !merge_sort_Permutation. symmetry. apply Permutation_cons_append. }
  apply (StronglySorted_unique_strong id_desc); [| | |exact Hperm].
  - intros x1 x2 H1 H2 R1 R2.
    apply (NoDup_fmap_eq Row.id (old ++ [new])); [exact Hnd | | |].
    + now rewrite merge_sort_Permutation in H1.
    + rewrite <- Permutation_cons_append.
      apply elem_of_cons in H2 as [-> | H2]; [left|right].
      now rewrite merge_sort_Permutation in H2.
    + unfold id_desc in *. lia.
  - apply StronglySorted_merge_sort; apply _.
  - constructor; [apply StronglySorted_merge_sort; apply _|].
    apply Forall_forall. intros y Hy.
    rewrite merge_sort_Permutation in Hy. apply Hnew in Hy. unfold id_desc. lia.
Qed.

Lemma rows_of_insert_other (d : Db) (u v : Z) (p c : pystr) (i : Z) (d' : Db) :
  insert_check d u p c = Return (i, d') -> v <> u -> rows_of d' v = rows_of d v.
Proof.
  intros H Hne. apply insert_check_Return in H as (_ & -> & _).
  unfold rows_of. cbn [checks]. rewrite filter_app.
  rewrite filter_cons_False by (cbn; congruence).
  rewrite filter_nil. apply app_nil_r.
Qed.

Lemma rows_of_sublist (d : Db) (u : Z) : rows_of d u `sublist_of` checks d.
Proof. apply sublist_filter. Qed.

Lemma insert_recent_newest (d : Db) (u : Z) (p c : pystr) (i : Z) (d' : Db) (n : nat) :
  primary_key d -> insert_check d u p c = Return (i, d') ->
  recent_rows d' u (S n) = Row.Build_t i u p c :: recent_rows d u n.
Proof.
  intros Hpk H. unfold recent_rows.
  pose proof (insert_check_primary_key _ _ _ _ _ _ Hpk H) as Hpk'.
  pose proof (insert_check_fresh _ _ _ _ _ _ H) as Hfresh.
  rewrite (rows_of_insert _ _ _ _ _ _ H) in *.
  rewrite merge_sort_newest; [reflexivity | |].
  - rewrite <- (rows_of_insert _ _ _ _ _ _ H).
    apply (sublist_NoDup _ (Row.id <$> checks d')); [exact Hpk'|].
    apply fmap_sublist, rows_of_sublist.
  - intros r Hr. cbn [Row.id]. apply Hfresh.
    unfold rows_of in Hr. now apply list_elem_of_filter in Hr.
Qed.

(** X10: after a successful insert for a user, the query for that user
    returns the new row first and then what it returned before with a
    limit one smaller, so nothing but the oldest entry is pushed out;
    and the query for any other user returns what it returned before. *)
Theorem insert_newest_first (d : Db) (u : Z) (p c : pystr) (i : Z) (d' : Db) :
  primary_key d -> insert_check d u p c = Return (i, d') ->
  (forall n, select_recent d' u (S n) =
             match select_recent d u n with
             | Return rows =>
               Return ({| sel_id := i; sel_payload := p; sel_created_at := c |} :: rows)
             | Raise e => Raise e
             end)
  /\ (forall v n, v <> u -> select_recent d' v n = select_recent d v n).
Proof.
  intros Hpk H. split.
  - intros n. pose proof (insert_check_Return _ _ _ _ _ _ H) as (_ & _ & Hu & _).
    rewrite !select_recent_rows by exact Hu.
    now rewrite (insert_recent_newest d u p c i d' n Hpk H).
  - intros v n Hne. unfold select_recent. destruct (bind_int v) as [v'|e] eqn:E; [|reflexivity].
    apply bind_int_Return in E as [-> _].
    fold (rows_of d' v). fold (rows_of d v).
    now rewrite (rows_of_insert_other _ _ _ _ _ _ _ H Hne).
Qed.

Lemma insert_newest_first_witness :
  (forall n, select_recent
               {| checks := checks TWO_USERS_DB
                            ++ [Row.Build_t 4 42 (Py.lit "d") (Py.lit "2024-01-04T00:00:00Z")];
                  sqlite_sequence := 4 |} 42 (S n) =
             match select_recent TWO_USERS_DB 42 n with
             | Return rows =>
               Return ({| sel_id := 4; sel_payload := Py.lit "d";
                          sel_created_at := Py.lit "2024-01-04T00:00:00Z" |} :: rows)
             | Raise e => Raise e
             end)
  /\ (forall v n, v <> 42 ->
        select_recent
          {| checks := checks TWO_USERS_DB
                       ++ [Row.Build_t 4 42 (Py.lit "d") (Py.lit "2024-01-04T00:00:00Z")];
             sqlite_sequence := 4 |} v n
        = select_recent TWO_USERS_DB v n).
Proof.
  apply (insert_newest_first TWO_USERS_DB 42 (Py.lit "d") (Py.lit "2024-01-04T00:00:00Z")).
  - exact primary_key_two_users.
  - reflexivity.
Defined.

(** X11: when an allowed user's text has been stored, that user's next
    [/last] answers with the header, then the line of the new check (its
    id, the first 60 characters of the trimmed text and the time stamp
    taken from the handler's clock), then the lines of the four newest
    checks the user had before. *)
Theorem text_then_last (ALLOWED : gset Z) (update later : Update)
    (u : User.t) (m m' : Message.t) (w : World) :
  effective_user update = Some u -> message update = Some m ->
  effective_user later = Some u -> message later = Some m' ->
  is_allowed ALLOWED (User.id u) = true ->
  fits_int64 (User.id u) -> encodable (Py.strip (Message.text m)) ->
  has_room (db w) -> primary_key (db w) ->
  let w1 := fst (on_text ALLOWED update w) in
  exists i,
    (forall r, r ∈ checks (db w) -> Row.id r < i)
    /\ cmd_last ALLOWED later w1 =
       (replied w1
          (Py.join nl
             (Py.lit "🕘 Laatste checks:"
              :: last_line {| sel_id := i;
                              sel_payload := Py.strip (Message.text m);
                              sel_created_at := isoformat (clock w) ++ Py.lit "Z" |}
              :: List.map last_line
                   (columns <$> recent_rows (db w) (User.id u) 4))),
        Return tt).
Proof.
  intros Eu Em Eu' Em' Hal Hu Hp Hroom Hpk w1. subst w1.
  destruct (insert_check_succeeds (db w) (User.id u) (Py.strip (Message.text m))
              (isoformat (clock w) ++ Py.lit "Z") Hu Hp
              (created_at_encodable (clock w)) Hroom) as (i & d' & Hi).
  rewrite (on_text_unfold ALLOWED update u m w Eu Em Hal), Hi. cbn [fst].
  exists i. split; [exact (insert_check_fresh _ _ _ _ _ _ Hi)|].
  unfold cmd_last. rewrite Eu', Em', Hal. cbn [negb].
  unfold mbind, M_bind, execute_select. cbn [db].
  rewrite (select_recent_rows d' (User.id u) 5 Hu).
  rewrite (insert_recent_newest _ _ _ _ _ _ 4 Hpk Hi).
  reflexivity.
Qed.

Lemma text_then_last_witness :
  exists i,
    (forall r, r ∈ checks (db BUSY_WORLD) -> Row.id r < i)
    /\ cmd_last {[ 42 ]} ALLOWED_UPDATE (fst (on_text {[ 42 ]} PADDED_UPDATE BUSY_WORLD)) =
       (replied (fst (on_text {[ 42 ]} PADDED_UPDATE BUSY_WORLD))
          (Py.join nl
             (Py.lit "🕘 Laatste checks:"
              :: last_line {| sel_id := i;
                              sel_payload := Py.strip (Py.lit "  unit 7  ");
                              sel_created_at := isoformat (clock BUSY_WORLD) ++ Py.lit "Z" |}
              :: List.map last_line
                   (columns <$> recent_rows (db BUSY_WORLD) 42 4))),
        Return tt).
Proof.
  refine (text_then_last {[ 42 ]} PADDED_UPDATE ALLOWED_UPDATE (User.Build_t 42)
            (Message.Build_t (Py.lit "  unit 7  ") 1704412800)
            (Message.Build_t (Py.lit "/last") 1704412800) BUSY_WORLD
            eq_refl eq_refl eq_refl eq_refl eq_refl _ _ _ _).
  - unfold fits_int64. simpl. lia.
  - vm_compute. reflexivity.
  - reflexivity.
  - exact primary_key_busy.
Defined.

(** ** What one user's traffic does to another user's [/last] *)

Lemma select_recent_insert_other (d : Db) (u v : Z) (p c : pystr) (i : Z) (d' : Db)
    (n : nat) :
  insert_check d u p c = Return (i, d') -> v <> u ->
  select_recent d' v n = select_recent d v n.
Proof.
  intros H Hne. unfold select_recent.
  destruct (bind_int v) as [v'|e] eqn:E; [|reflexivity].
  apply bind_int_Return in E as [-> _].
  fold (rows_of d' v). fold (rows_of d v).
  now rewrite (rows_of_insert_other _ _ _ _ _ _ _ H Hne).
Qed.

(** [/last] looks at nothing but the rows its query returns. *)
Lemma cmd_last_answers (ALLOWED : gset Z) (later : Update) (w1 w2 : World) :
  (forall b, effective_user later = Some b ->
             select_recent (db w1) (User.id b) 5 = select_recent (db w2) (User.id b) 5) ->
  answers (cmd_last ALLOWED) later w1 = answers (cmd_last ALLOWED) later w2.
Proof.
  intros H. unfold answers, cmd_last.
  destruct (effective_user later) as [b|], (message later) as [m|];
    cbn [mret M_ret fst snd sent]; rewrite ?drop_all; try reflexivity.
  destruct (is_allowed ALLOWED (User.id b)); cbn [negb].
  - unfold mbind, M_bind, execute_select. rewrite (H b eq_refl).
    destruct (select_recent (db w2) (User.id b) 5) as [[|r rows]|e];
      cbn [reply_text fst snd sent]; rewrite ?drop_app_length, ?drop_all; reflexivity.
  - cbn [reply_text fst snd sent]. now rewrite !drop_app_length.
Qed.

(** X17: whatever a handler does with an update from one sender, [/last]
    answers a different sender afterwards exactly as it would have
    answered before: the same replies and the same outcome. *)
Theorem last_unaffected_by_others (ALLOWED : gset Z) (h : Update -> M unit)
    (update later : Update) (w : World) :
  h ∈ registered_handlers ALLOWED ->
  (forall a b, effective_user update = Some a -> effective_user later = Some b ->
               User.id a <> User.id b) ->
  answers (cmd_last ALLOWED) later (fst (h update w))
  = answers (cmd_last ALLOWED) later w.
Proof.
  intros Hh Hne. apply cmd_last_answers. intros b Eb.
  destruct (handler_step ALLOWED h update w Hh) as
      [E | [(s & E) | [(e & E) | (u & m & i & d & _ & Eu & _ & Hi & E)]]];
    rewrite E; cbn [fst db replied]; try reflexivity.
  apply (select_recent_insert_other _ _ _ _ _ _ _ _ Hi).
  intros Heq. exact (Hne u b Eu Eb (eq_sym Heq)).
Qed.

Lemma last_unaffected_by_others_witness :
  answers (cmd_last ∅) ALLOWED_UPDATE (fst (on_text ∅ STRANGER_UPDATE BUSY_WORLD))
  = answers (cmd_last ∅) ALLOWED_UPDATE BUSY_WORLD.
Proof.
  apply (last_unaffected_by_others ∅ (on_text ∅) STRANGER_UPDATE ALLOWED_UPDATE BUSY_WORLD).
  - unfold registered_handlers. rewrite !elem_of_cons. auto.
  - intros a b [= <-] [= <-]. cbn [User.id]. lia.
Defined.

(** ** One answer for each update *)

Lemma answers_reply (h : Update -> M unit) (update : Update) (w : World) (s : pystr) :
  h update w = (replied w s, Return tt) -> answers h update w = ([s], Return tt).
Proof.
  intros E. unfold answers. rewrite E. cbn [fst snd replied sent].
  now rewrite drop_app_length.
Qed.

Lemma answers_raise (h : Update -> M unit) (update : Update) (w : World) (e : exn) :
  h update w = (w, Raise e) -> answers h update w = ([], Raise e).
Proof.
  intros E. unfold answers. rewrite E. cbn [fst snd]. now rewrite drop_all.
Qed.

(** X18: an update that has a sender and a message gets exactly one
    reply from the handler it is given to, whether the sender is allowed
    or not, unless the handler raises, and then it gets none. *)
Theorem one_answer_per_update (ALLOWED : gset Z) (h : Update -> M unit)
    (update : Update) (u : User.t) (m : Message.t) (w : World) :
  h ∈ registered_handlers ALLOWED ->
  effective_user update = Some u -> message update = Some m ->
  (exists s, answers h update w = ([s], Return tt))
  \/ (exists e, answers h update w = ([], Raise e)).
Proof.
  unfold registered_handlers. rewrite !elem_of_cons, elem_of_nil.
  intros [-> | [-> | [-> | [-> | []]]]] Eu Em.
  - left. destruct (is_allowed ALLOWED (User.id u)) eqn:Hal; eexists;
      apply answers_reply; unfold cmd_start; rewrite Eu, Em, Hal; reflexivity.
  - left. destruct (is_allowed ALLOWED (User.id u)) eqn:Hal; eexists;
      apply answers_reply; unfold cmd_help; rewrite Eu, Em, Hal; reflexivity.
  - destruct (is_allowed ALLOWED (User.id u)) eqn:Hal.
    + destruct (select_recent (db w) (User.id u) 5) as [[|r rows]|e] eqn:Es;
        [left | left | right]; eexists;
        [apply answers_reply | apply answers_reply | apply answers_raise];
        unfold cmd_last; rewrite Eu, Em, Hal; cbn [negb];
        unfold mbind, M_bind, execute_select; rewrite Es; reflexivity.
    + left. eexists. apply answers_reply.
      unfold cmd_last. rewrite Eu, Em, Hal. reflexivity.
  - destruct (is_allowed ALLOWED (User.id u)) eqn:Hal.
    + destruct (insert_check (db w) (User.id u) (Py.strip (Message.text m))
                  (isoformat (clock w) ++ Py.lit "Z")) as [[i d]|e] eqn:Ei;
        [left | right]; eexists.
      * unfold answers. rewrite (on_text_unfold ALLOWED update u m w Eu Em Hal), Ei.
        cbn [fst snd sent]. now rewrite drop_app_length.
      * apply answers_raise.
        now rewrite (on_text_unfold ALLOWED update u m w Eu Em Hal), Ei.
    + left. eexists. apply answers_reply.
      unfold on_text. rewrite Eu, Em, Hal. reflexivity.
Qed.

Lemma one_answer_per_update_witness :
  (exists s, answers (on_text {[ 42 ]}) PADDED_UPDATE BUSY_WORLD = ([s], Return tt))
  \/ (exists e, answers (on_text {[ 42 ]}) PADDED_UPDATE BUSY_WORLD = ([], Raise e)).
Proof.
  apply (one_answer_per_update {[ 42 ]} (on_text {[ 42 ]}) PADDED_UPDATE
           (User.Build_t 42) (Message.Build_t (Py.lit "  unit 7  ") 1704412800)).
  - unfold registered_handlers. rewrite !elem_of_cons. auto.
  - reflexivity.
  - reflexivity.
Defined.

(* ===================================================================== *)
(** * More about trimming and the classifier *)
(* ===================================================================== *)

Local Open Scope N_scope.

Lemma take_drop_while {A} (p : A -> bool) (l : list A) :
  l = Py.take_while p l ++ Py.drop_while p l.
Proof.
  induction l as [|x l IH]; [reflexivity|]. simpl.
  destruct (p x); simpl; [now rewrite <- IH | reflexivity].
Qed.

Lemma take_while_forallb {A} (p : A -> bool) (l : list A) :
  forallb p (Py.take_while p l) = true.
Proof.
  induction l as [|x l IH]; [reflexivity|]. simpl.
  destruct (p x) eqn:E; simpl; [now rewrite E | reflexivity].
Qed.

Lemma drop_while_all_app {A} (p : A -> bool) (a l : list A) :
  forallb p a = true -> Py.drop_while p (a ++ l) = Py.drop_while p l.
Proof.
  induction a as [|x a IH]; [reflexivity|]. simpl.
  destruct (p x); simpl; [exact IH | discriminate].
Qed.

Lemma drop_while_stop {A} (p : A -> bool) (l1 l2 : list A) (x : A) :
  p x = false ->
  Py.drop_while p (l1 ++ x :: l2) = Py.drop_while p l1 ++ x :: l2.
Proof.
  intros Hp. induction l1 as [|a l1 IH]; simpl; [now rewrite Hp|].
  destruct (p a); [exact IH | reflexivity].
Qed.

Lemma drop_while_idem {A} (p : A -> bool) (l : list A) :
  Py.drop_while p (Py.drop_while p l) = Py.drop_while p l.
Proof.
  destruct (drop_while_head p l) as [E | (x & l' & E & Hx)]; rewrite E;
    simpl; [reflexivity | now rewrite Hx].
Qed.

Lemma rstrip_stop (a b : pystr) (x : N) :
  Py.isspace x = false -> Py.rstrip (a ++ x :: b) = a ++ x :: Py.rstrip b.
Proof.
  intros Hx. unfold Py.rstrip.
  rewrite rev_app_distr. cbn [rev]. rewrite <- app_assoc. cbn [app].
  rewrite (drop_while_stop Py.isspace (rev b) (rev a) x Hx).
  rewrite rev_app_distr. cbn [rev]. rewrite rev_involutive, <- app_assoc.
  reflexivity.
Qed.

Lemma rstrip_cons (x : N) (b : pystr) :
  Py.isspace x = false -> Py.rstrip (x :: b) = x :: Py.rstrip b.
Proof. exact (rstrip_stop [] b x). Qed.

Lemma strip_idem (s : pystr) : Py.strip (Py.strip s) = Py.strip s.
Proof.
  unfold Py.strip, Py.lstrip.
  destruct (drop_while_head Py.isspace s) as [E | (x & l & E & Hx)]; rewrite E.
  - reflexivity.
  - rewrite (rstrip_cons x l Hx). cbn [Py.drop_while]. rewrite Hx.
    rewrite (rstrip_cons x (Py.rstrip l) Hx). f_equal.
    unfold Py.rstrip. rewrite rev_involutive. now rewrite drop_while_idem.
Qed.

(** X12: what is stored is the text without the white space at its two
    ends and nothing else: the text is white space, then the trimmed
    text, then white space, and the trimmed text neither starts nor ends
    with white space.  Trimming twice changes nothing, so the handler,
    which classifies the trimmed text, gets the class of the text. *)
Theorem strip_exact (s : pystr) :
  (exists lead trail,
      s = lead ++ Py.strip s ++ trail
      /\ forallb Py.isspace lead = true /\ forallb Py.isspace trail = true)
  /\ (forall c r, Py.strip s = c :: r -> Py.isspace c = false)
  /\ (forall r c, Py.strip s = r ++ [c] -> Py.isspace c = false)
  /\ Py.strip (Py.strip s) = Py.strip s
  /\ detect_type (Py.strip s) = detect_type s.
Proof.
  split; [|split; [|split; [|split]]].
  - exists (Py.take_while Py.isspace s),
           (rev (Py.take_while Py.isspace (rev (Py.lstrip s)))).
    split; [|split; [apply take_while_forallb | rewrite forallb_rev; apply take_while_forallb]].
    unfold Py.strip, Py.rstrip. rewrite <- rev_app_distr.
    rewrite <- (take_drop_while Py.isspace (rev (Py.lstrip s))), rev_involutive.
    apply take_drop_while.
  - intros c r E. unfold Py.strip, Py.lstrip in E.
    destruct (drop_while_head Py.isspace s) as [E' | (x & l & E' & Hx)]; rewrite E' in E.
    + discriminate.
    + rewrite (rstrip_cons x l Hx) in E. congruence.
  - intros r c E. apply (strip_suffix_not_space s (length r)).
    rewrite E. now rewrite drop_app_length.
  - apply strip_idem.
  - unfold detect_type. cbv zeta. now rewrite strip_idem.
Qed.

(** ** The two patterns exclude each other *)

Lemma count_head (cls : N -> bool) (hi : option nat) (s : pystr) :
  (0 < Re.count cls hi s)%nat -> exists c r, s = c :: r /\ cls c = true.
Proof.
  destruct s as [|c r]; [simpl; lia|]. intros H. exists c, r. split; [reflexivity|].
  destruct hi as [[|h]|]; simpl in H; try lia; destruct (cls c); [reflexivity | lia | reflexivity | lia].
Qed.

Lemma permit_head (t : pystr) :
  Re.found (Re.match_ PERMIT_RE t) = true ->
  exists c r, t = c :: r /\ Py.isdecimal c = true.
Proof.
  unfold Re.match_, PERMIT_RE. cbn [Re.seq Re.run Nat.eqb].
  destruct (Nat.ltb_spec (Re.count Py.isdecimal (Some 20%nat) t) 6) as [L | L];
    [discriminate|].
  intros _. apply (count_head Py.isdecimal (Some 20%nat)). lia.
Qed.

Lemma url_head (t : pystr) :
  url_scheme t = true -> exists c r, t = c :: r /\ Re.literal_ignore 0x68 c = true.
Proof.
  unfold url_scheme, istartswith.
  change (Py.lit "http://") with (0x68 :: Py.lit "ttp://").
  change (Py.lit "https://") with (0x68 :: Py.lit "ttps://").
  destruct t as [|c r]; [discriminate|]. cbn [ci_prefix].
  destruct (Re.literal_ignore 104 c) eqn:E;
    [intros _; exists c, r; split; [reflexivity | exact E] | simpl; discriminate].
Qed.

(** X13: no text matches both patterns of the classifier, so the order
    in which [detect_type] tries them decides nothing: a text that
    matches the permit pattern starts with a digit, and one that matches
    the URL pattern with the letter h. *)
Theorem patterns_exclusive (t : pystr) :
  Re.found (Re.match_ URL_RE t) && Re.found (Re.match_ PERMIT_RE t) = false.
Proof.
  destruct (Re.found (Re.match_ URL_RE t)) eqn:Hurl; [|reflexivity].
  destruct (Re.found (Re.match_ PERMIT_RE t)) eqn:Hpermit; [|reflexivity].
  exfalso. rewrite url_re_match in Hurl.
  apply url_head in Hurl as (c & r & -> & Hh).
  apply permit_head in Hpermit as (c' & r' & [= <- <-] & Hd).
  now rewrite (decimal_not_h c Hd) in Hh.
Qed.

Lemma strip_exact_witness :
  (exists lead trail,
      Py.lit "  unit 7  " = lead ++ Py.strip (Py.lit "  unit 7  ") ++ trail
      /\ forallb Py.isspace lead = true /\ forallb Py.isspace trail = true)
  /\ Py.isspace 0x75 = false
  /\ Py.isspace 0x37 = false.
Proof.
  destruct (strip_exact (Py.lit "  unit 7  ")) as (H1 & H2 & H3 & _).
  split; [exact H1|]. split.
  - apply (H2 0x75 (Py.lit "nit 7")). reflexivity.
  - apply (H3 (Py.lit "unit ") 0x37). reflexivity.
Defined.

(** ** A scheme at the start is enough *)

Lemma literal_slash (c : N) : Re.literal_ignore 0x2F c = true -> c = 0x2F.
Proof.
  unfold Re.literal_ignore, Re.is_ascii_upper.
  change (Re.unicode_case_variants 47) with (@nil N). cbn [existsb].
  rewrite orb_false_r, orb_true_iff, !andb_true_iff, !N.eqb_eq, !N.leb_le. lia.
Qed.

Lemma literal_h_not_space (c : N) : Re.literal_ignore 0x68 c = true -> Py.isspace c = false.
Proof.
  unfold Re.literal_ignore, Re.is_ascii_upper.
  change (Re.unicode_case_variants 104) with (@nil N). cbn [existsb].
  rewrite orb_false_r, orb_true_iff, !andb_true_iff, !N.eqb_eq, !N.leb_le.
  intros H. assert (c = 104 \/ c = 72) as [-> | ->] by lia; reflexivity.
Qed.

(** A word found at the start of a text is still found when what
    follows it is replaced. *)
Lemma ci_prefix_split (w t rest : pystr) :
  ci_prefix w t = Some rest ->
  exists pre, t = pre ++ rest /\ forall rest', ci_prefix w (pre ++ rest') = Some rest'.
Proof.
  revert t. induction w as [|a w IH]; intros t; cbn [ci_prefix].
  - intros [= <-]. exists []. split; reflexivity.
  - destruct t as [|c t]; [discriminate|].
    destruct (Re.literal_ignore a c) eqn:E; [|discriminate]. intros H.
    destruct (IH t H) as (pre & -> & Hpre). exists (c :: pre).
    split; [reflexivity|]. intros rest'. cbn [app ci_prefix]. now rewrite E.
Qed.

(** A word that ends in a slash, found at the start of a text, is found
    at the start of the text trimmed on the right. *)
Lemma ci_prefix_rstrip (w t : pystr) :
  istartswith (w ++ [0x2F]) t = true -> istartswith (w ++ [0x2F]) (Py.rstrip t) = true.
Proof.
  unfold istartswith. rewrite !ci_prefix_app.
  destruct (ci_prefix w t) as [r|] eqn:Ew; [|discriminate].
  destruct (ci_prefix_split w t r Ew) as (pre & -> & Hpre).
  destruct r as [|c r]; [discriminate|]. cbn [ci_prefix].
  destruct (Re.literal_ignore 0x2F c) eqn:Ec; [|discriminate]. intros _.
  apply literal_slash in Ec as Hc. subst c.
  rewrite (rstrip_stop pre r 0x2F eq_refl), Hpre. cbn [ci_prefix]. now rewrite Ec.
Qed.

Lemma url_scheme_rstrip (t : pystr) : url_scheme t = true -> url_scheme (Py.rstrip t) = true.
Proof.
  unfold url_scheme.
  change (Py.lit "http://") with (Py.lit "http:/" ++ [0x2F]).
  change (Py.lit "https://") with (Py.lit "https:/" ++ [0x2F]).
  intros [H | H]%orb_prop; apply ci_prefix_rstrip in H; rewrite H;
    [reflexivity | apply orb_true_r].
Qed.

(** X14: a text that starts, after any white space, with [http://] or
    [https://] in any mix of cases is a [listing_url], whatever follows
    the scheme. *)
Theorem scheme_is_listing_url (lead t : pystr) :
  forallb Py.isspace lead = true -> url_scheme t = true ->
  detect_type (lead ++ t) = Py.lit "listing_url".
Proof.
  intros Hlead Hurl. rewrite detect_type_classify. unfold classify_by. cbv zeta.
  assert (Es : Py.strip (lead ++ t) = Py.rstrip t).
  { unfold Py.strip, Py.lstrip. rewrite (drop_while_all_app _ _ _ Hlead).
    destruct (url_head t Hurl) as (c & r & -> & Hc).
    cbn [Py.drop_while]. now rewrite (literal_h_not_space c Hc). }
  now rewrite Es, (url_scheme_rstrip t Hurl).
Qed.

Lemma scheme_is_listing_url_witness :
  detect_type (Py.lit "  " ++ Py.lit "HtTpS://9 unit 3 ") = Py.lit "listing_url".
Proof.
  apply (scheme_is_listing_url (Py.lit "  ") (Py.lit "HtTpS://9 unit 3 ")); reflexivity.
Defined.

(* ===================================================================== *)
(** * More about the enricher *)
(* ===================================================================== *)

(** The unit number of a result, by the reference search. *)
Lemma fake_lookup_unit (text input_type : pystr) :
  unit_number (fake_lookup text input_type) =
  Some (match first_unit text with
        | Some ds => ds
        | None => Py.lit "—"
        end).
Proof.
  unfold fake_lookup. cbn [unit_number].
  change (match Re.search UNIT_RE text with
          | Some m => Re.group m 2
          | None => None
          end) with (group2 (Re.search_from UNIT_RE 0 text)).
  rewrite search_first_unit.
  destruct (first_unit text) as [ds|] eqn:E; [|reflexivity].
  destruct (first_unit_cons _ _ E) as (c & r & ->). reflexivity.
Qed.

Lemma nonempty_run (r ds : pystr) :
  nonempty (Py.take_while Py.isdecimal r) = Some ds -> digit_run_in r ds.
Proof.
  intros H. exists [], (Py.drop_while Py.isdecimal r).
  assert (E : ds = Py.take_while Py.isdecimal r).
  { destruct (Py.take_while Py.isdecimal r); simpl in H; congruence. }
  subst ds. split; [apply take_drop_while|]. split.
  - destruct (Py.take_while Py.isdecimal r); [discriminate H | discriminate].
  - split; [apply take_while_forallb|].
    destruct (drop_while_head Py.isdecimal r) as [-> | (x & l & -> & Hx)]; auto.
Qed.

Lemma digit_run_in_app (pre s ds : pystr) :
  digit_run_in s ds -> digit_run_in (pre ++ s) ds.
Proof.
  intros (a & b & -> & H). exists (pre ++ a), b.
  split; [now rewrite <- app_assoc | exact H].
Qed.

Lemma digits_after_run (rest ds : pystr) :
  digits_after rest = Some ds -> digit_run_in rest ds.
Proof.
  destruct rest as [|c r]; [discriminate|]. cbn [digits_after].
  destruct (separator c); intros H.
  - apply (digit_run_in_app [c]). now apply nonempty_run.
  - now apply nonempty_run.
Qed.

Lemma first_of_map {A B} (f : A -> option B) (l : list A) (b : B) :
  first_of (List.map f l) = Some b -> exists a, In a l /\ f a = Some b.
Proof.
  induction l as [|a l IH]; [discriminate|]. cbn [List.map first_of].
  destruct (f a) as [b'|] eqn:E.
  - intros [= <-]. exists a. split; [now left | exact E].
  - intros H. destruct (IH H) as (a' & Hin & Ha'). exists a'. split; [now right | exact Ha'].
Qed.

Lemma unit_here_run (s ds : pystr) : unit_here s = Some ds -> digit_run_in s ds.
Proof.
  unfold unit_here. intros H.
  destruct (first_of_map _ _ _ H) as (w & _ & Hw).
  destruct (ci_prefix w s) as [rest|] eqn:E; [|discriminate].
  destruct (ci_prefix_split w s rest E) as (pre & -> & _).
  apply digit_run_in_app. now apply digits_after_run.
Qed.

Lemma first_unit_run (s ds : pystr) : first_unit s = Some ds -> digit_run_in s ds.
Proof.
  induction s as [|c s IH]; cbn [first_unit].
  - destruct (unit_here []) eqn:E; [|discriminate].
    intros [= <-]. now apply unit_here_run.
  - destruct (unit_here (c :: s)) eqn:E.
    + intros [= <-]. now apply unit_here_run.
    + intros H. apply (digit_run_in_app [c]). now apply IH.
Qed.

(** X15: the unit number of a result is never empty: it is the dash, or
    a run of decimal digits that stands in the text, not followed there
    by a further digit. *)
Theorem unit_number_is_run (text input_type : pystr) :
  exists ds,
    unit_number (fake_lookup text input_type) = Some ds
    /\ ds <> []
    /\ (ds = Py.lit "—" \/ digit_run_in text ds).
Proof.
  rewrite fake_lookup_unit.
  destruct (first_unit text) as [ds|] eqn:E.
  - exists ds. pose proof (first_unit_run text ds E) as H.
    split; [reflexivity|]. split; [|now right].
    destruct H as (_ & _ & _ & Hne & _). exact Hne.
  - exists (Py.lit "—"). split; [reflexivity|]. split; [discriminate | now left].
Qed.

(** ** Digits alone carry no unit *)

Lemma decimal_not_word_head (lo c : N) :
  lo = 0x75 \/ lo = 0x61 \/ lo = 0x66 ->
  Py.isdecimal c = true -> Re.literal_ignore lo c = false.
Proof.
  intros Hlo Hd. destruct (Re.literal_ignore lo c) eqn:E; [|reflexivity].
  unfold Re.literal_ignore, Re.is_ascii_upper in E.
  assert (Hv : Re.unicode_case_variants lo = [])
    by (destruct Hlo as [-> | [-> | ->]]; reflexivity).
  rewrite Hv in E. cbn [existsb] in E.
  rewrite orb_false_r, orb_true_iff, !andb_true_iff, !N.eqb_eq, !N.leb_le in E.
  assert (c = 117 \/ c = 85 \/ c = 97 \/ c = 65 \/ c = 102 \/ c = 70)
    as [-> | [-> | [-> | [-> | [-> | ->]]]]] by lia; vm_compute in Hd; discriminate.
Qed.

Lemma unit_here_decimal_head (c : N) (s : pystr) :
  Py.isdecimal c = true -> unit_here (c :: s) = None.
Proof.
  intros Hd. unfold unit_here, UNIT_WORDS. cbn [List.map].
  change (Py.lit "unit") with (0x75 :: Py.lit "nit").
  change (Py.lit "apt") with (0x61 :: Py.lit "pt").
  change (Py.lit "apartment") with (0x61 :: Py.lit "partment").
  change (Py.lit "flat") with (0x66 :: Py.lit "lat").
  cbn [ci_prefix].
  rewrite !(decimal_not_word_head _ c) by (exact Hd || auto).
  reflexivity.
Qed.

Lemma first_unit_decimal (s : pystr) : forallb Py.isdecimal s = true -> first_unit s = None.
Proof.
  induction s as [|c s IH]; [reflexivity|]. cbn [forallb first_unit].
  intros [Hc Hs]%andb_prop. now rewrite (unit_here_decimal_head c s Hc), IH.
Qed.

(** X16: a text classified as [permit_number] never yields a unit: the
    card the handler builds for it, from the trimmed text, shows the
    dash as unit. *)
Theorem permit_number_has_no_unit (text : pystr) :
  detect_type text = Py.lit "permit_number" ->
  unit_number (fake_lookup (Py.strip text) (detect_type (Py.strip text)))
  = Some (Py.lit "—").
Proof.
  rewrite detect_type_classify. unfold classify_by. cbv zeta.
  destruct (url_scheme (Py.strip text)); [intros H; vm_compute in H; discriminate|].
  destruct (digit_string Py.isdecimal (Py.strip text)) eqn:D;
    [|intros H; vm_compute in H; discriminate].
  intros _. unfold digit_string in D. apply andb_prop in D as [_ Hall].
  now rewrite fake_lookup_unit, (first_unit_decimal _ Hall).
Qed.

Lemma permit_number_has_no_unit_witness :
  unit_number (fake_lookup (Py.strip (Py.lit " 12345678 "))
                 (detect_type (Py.strip (Py.lit " 12345678 "))))
  = Some (Py.lit "—").
Proof. apply (permit_number_has_no_unit (Py.lit " 12345678 ")). reflexivity. Defined.

(* ===================================================================== *)
(** * Time stamps *)
(* ===================================================================== *)

Lemma digits_of_uint_length (d : Decimal.uint) :
  length (Py.digits_of_uint d) = N.to_nat (DecimalPos.Unsigned.usize d).
Proof.
  induction d; cbn [Py.digits_of_uint DecimalPos.Unsigned.usize length];
    [reflexivity | rewrite N2Nat.inj_succ; congruence ..].
Qed.

Lemma zfill_length (w : nat) (s : pystr) :
  (length s <= w)%nat -> length (zfill w s) = w.
Proof. intros H. unfold zfill. rewrite length_app, repeat_length. lia. Qed.

(** A field that fits its width is printed with exactly that width. *)
Lemma field_length (w : nat) (n : N) :
  (0 < w)%nat -> n < 10 ^ N.of_nat w -> length (zfill w (Py.str_of_N n)) = w.
Proof.
  intros Hw Hn. apply zfill_length. unfold Py.str_of_N.
  rewrite digits_of_uint_length.
  pose proof (usize_bound n (N.of_nat w) ltac:(lia) Hn). lia.
Qed.

Lemma digits_value_uint (d : Decimal.uint) (acc : N) :
  fold_left (fun acc c => 10 * acc + (c - 48)) (Py.digits_of_uint d) acc
  = uint_value d acc.
Proof.
  revert acc.
  induction d; intros acc; cbn [Py.digits_of_uint fold_left uint_value];
    rewrite ?IHd; try reflexivity; f_equal; lia.
Qed.

Lemma digits_value_zeros (k : nat) (s : pystr) :
  digits_value (repeat 48 k ++ s) = digits_value s.
Proof.
  unfold digits_value. rewrite fold_left_app. f_equal.
  induction k; [reflexivity|]. cbn [repeat fold_left]. exact IHk.
Qed.

(** Reading a printed field gives its number back, whatever the padding. *)
Lemma digits_value_zfill (w : nat) (n : N) :
  digits_value (zfill w (Py.str_of_N n)) = n.
Proof.
  unfold zfill. rewrite digits_value_zeros. unfold digits_value, Py.str_of_N.
  rewrite digits_value_uint. apply uint_value_to_uint.
Qed.

Lemma field_split (w : nat) (n n' : N) (r r' : pystr) :
  (0 < w)%nat -> n < 10 ^ N.of_nat w -> n' < 10 ^ N.of_nat w ->
  zfill w (Py.str_of_N n) ++ r = zfill w (Py.str_of_N n') ++ r' ->
  n = n' /\ r = r'.
Proof.
  intros Hw Hn Hn' H. apply app_inj_1 in H as [H1 H2].
  - split; [|exact H2]. apply (f_equal digits_value) in H1.
    now rewrite !digits_value_zfill in H1.
  - now rewrite !field_length.
Qed.

Ltac next_field H :=
  apply field_split in H as [-> H]; [| lia | cbn; lia | cbn; lia].

Lemma isoformat_inj (t t' : datetime) :
  in_range t -> in_range t' -> isoformat t = isoformat t' -> t = t'.
Proof.
  destruct t as [y mo d h mi s us], t' as [y' mo' d' h' mi' s' us'].
  unfold in_range, isoformat.
  cbn [year month day hour minute second microsecond].
  intros (Hy & Hmo & Hd & Hh & Hmi & Hs & Hus)
         (Hy' & Hmo' & Hd' & Hh' & Hmi' & Hs' & Hus') H.
  next_field H. apply app_inv_head in H.
  next_field H. apply app_inv_head in H.
  next_field H. apply app_inv_head in H.
  next_field H. apply app_inv_head in H.
  next_field H. apply app_inv_head in H.
  next_field H.
  change (Py.lit ".") with [46] in H.
  destruct (N.eqb_spec us 0) as [-> | Hn], (N.eqb_spec us' 0) as [-> | Hn'];
    try reflexivity; try discriminate H.
  apply app_inv_head in H. apply (f_equal digits_value) in H.
  rewrite !digits_value_zfill in H. now subst.
Qed.

(** X19: the time stamps of two different clock readings differ: the
    [created_at] of a check tells to the microsecond when the handler
    read the clock. *)
Theorem created_at_identifies_clock (t t' : datetime) :
  in_range t -> in_range t' -> t <> t' ->
  isoformat t ++ Py.lit "Z" <> isoformat t' ++ Py.lit "Z".
Proof.
  intros Ht Ht' Hne H. apply Hne, isoformat_inj; [exact Ht | exact Ht' |].
  exact (app_inv_tail _ _ _ H).
Qed.

Lemma created_at_identifies_clock_witness :
  isoformat MIDNIGHT ++ Py.lit "Z" <> isoformat A_MICROSECOND_LATER ++ Py.lit "Z".
Proof.
  apply (created_at_identifies_clock MIDNIGHT A_MICROSECOND_LATER).
  - unfold in_range. cbn. lia.
  - unfold in_range. cbn. lia.
  - discriminate.
Defined.
